(** * Gepetto: the LiteLLM backend ([gepetto/models/litellm.py])

    A shallow embedding of the [LiteLLM] language-model adapter: model
    discovery over HTTP ([supported_models], [is_configured_properly]) and
    request dispatch ([query_model]).  Python objects are embedded as a small
    universe of values, exceptions carry the method resolution order of
    their class so that [except] clauses select handlers the way Python
    does, and the side effects of a dispatch (the SDK request, callback
    invocations, hand-overs to the host's [execute_sync], printed lines) are
    recorded in an event trace. *)

From Stdlib Require Import ZArith Ascii String.
From stdpp Require Import base option list strings gmap.

Set Warnings "-register-all".
Local Open Scope Z_scope.

(** ** Python values *)

(** [PyStr] is a value whose type is exactly [str]; [PyStrSub cls s] is an
    instance of a proper subclass [cls] of [str] with text [s].  [PyDict] is
    a dictionary with string keys.  These are the values of messages,
    options and decoded JSON bodies; floating-point numbers are left out. *)
Inductive pyval :=
| PyNone
| PyBool (b : bool)
| PyInt (n : Z)
| PyStr (s : string)
| PyStrSub (cls : string) (s : string)
| PyList (xs : list pyval)
| PyDict (d : gmap string pyval).

(** [v == "..."] for a string literal on the right-hand side.  A [str]
    subclass inherits [str.__eq__]. *)
Definition py_eq_str (v : pyval) (lit : string) : bool :=
  match v with
  | PyStr s | PyStrSub _ s => String.eqb s lit
  | _ => false
  end.

(** The name of the type of a value, as it appears in Python's messages. *)
Definition type_name (v : pyval) : string :=
  match v with
  | PyNone => "NoneType"
  | PyBool _ => "bool"
  | PyInt _ => "int"
  | PyStr _ => "str"
  | PyStrSub cls _ => cls
  | PyList _ => "list"
  | PyDict _ => "dict"
  end.

(** ** Exceptions *)

Inductive pyclass :=
| BaseException
| Exception
| OpenAIError
| BadRequestError
| RequestException
| OtherClass (name : string).

#[global] Instance pyclass_eq_dec : EqDecision pyclass.
Proof. solve_decision. Defined.

(** An exception instance: the linearised ancestry of its class (the class
    itself first) and the text [str(e)]. *)
Record exn := { exn_mro : list pyclass; exn_str : string }.

(** [except cls] selects the handler when [cls] occurs in the ancestry. *)
Definition isinstance (e : exn) (cls : pyclass) : bool :=
  bool_decide (cls ∈ exn_mro e).

Definition builtin_error (name msg : string) : exn :=
  {| exn_mro := [OtherClass name; Exception; BaseException]; exn_str := msg |}.

Definition AttributeError (ty attr : string) : exn :=
  builtin_error "AttributeError"
    ("'" +:+ ty +:+ "' object has no attribute '" +:+ attr +:+ "'").
Definition TypeError (msg : string) : exn := builtin_error "TypeError" msg.
Definition IndexError (msg : string) : exn :=
  {| exn_mro := [OtherClass "IndexError"; OtherClass "LookupError"; Exception; BaseException];
     exn_str := msg |}.
Definition KeyError (key : string) : exn :=
  {| exn_mro := [OtherClass "KeyError"; OtherClass "LookupError"; Exception; BaseException];
     exn_str := "'" +:+ key +:+ "'" |}.
Definition ValueError (msg : string) : exn := builtin_error "ValueError" msg.

(** ** Effects: an event trace with exceptions *)

(** The keyword arguments of [client.chat.completions.create]. *)
Record request := {
  req_model : string;
  req_messages : pyval;
  req_stream : bool;
  req_extra : gmap string pyval
}.

(** [functools.partial(cb, **kwargs)]: the callback with keyword arguments
    already bound. *)
Record cb_partial := { partial_kwargs : gmap string pyval }.

Inductive event :=
| EvRequest (r : request)                     (* the SDK call is issued *)
| EvCallback (args : list pyval)              (* the callback, called in place *)
| EvExecuteSync (f : cb_partial) (flags : Z)  (* [ida_kernwin.execute_sync(f, flags)] *)
| EvPrint (line : string).                    (* [print(line)] *)

(** A computation appends events to the trace and ends either normally or
    with a raised exception. *)
Definition M (A : Type) : Type := list event * (exn + A).

#[global] Instance M_ret : MRet M := λ A a, ([], inr a).
#[global] Instance M_bind : MBind M := λ A B k m,
  match m with
  | (tr, inl e) => (tr, inl e)
  | (tr, inr a) => let '(tr', r) := k a in (tr ++ tr', r)
  end.

Definition raise {A} (e : exn) : M A := ([], inl e).
Definition emit (ev : event) : M unit := ([ev], inr tt).
Definition lift {A} (r : exn + A) : M A := ([], r).

(** ** [re.search] for the context-length pattern *)

(** The fragment of regular expressions the source uses: literal characters
    and [\d+].  Strings are sequences of 8-bit characters, and [\d] is a
    decimal digit [0]..[9].  Python's [\d] accepts the decimal digits of
    other scripts as well; on text within ASCII the two coincide. *)
Inductive ritem := RChar (c : ascii) | RDigits.

Fixpoint rlit (s : string) : list ritem :=
  match s with
  | EmptyString => []
  | String c s' => RChar c :: rlit s'
  end.

Definition is_digit (c : ascii) : bool :=
  let n := nat_of_ascii c in (48 <=? n)%nat && (n <=? 57)%nat.

(** [re_match p s]: some prefix of [s] matches [p]. *)
Fixpoint re_match (p : list ritem) (s : string) {struct s} : bool :=
  match p with
  | [] => true
  | RChar c :: p' =>
      match s with
      | String c' s' => if Ascii.eqb c c' then re_match p' s' else false
      | EmptyString => false
      end
  | RDigits :: p' =>
      match s with
      | String c' s' =>
          is_digit c' && (re_match (RDigits :: p') s' || re_match p' s')
      | EmptyString => false
      end
  end.

(** [re.search(p, s)] is truthy iff [p] matches at some position of [s]. *)
Fixpoint re_search (p : list ritem) (s : string) : bool :=
  re_match p s ||
  match s with
  | EmptyString => false
  | String _ s' => re_search p s'
  end.

(** [r'maximum context length is \d+ tokens, however you requested \d+ tokens'] *)
Definition context_length_pattern : list ritem :=
  rlit "maximum context length is " ++ [RDigits] ++
  rlit " tokens, however you requested " ++ [RDigits] ++ rlit " tokens".

(** ** [str.format] with keyword arguments *)

Definition map_ok {A B} (f : A → B) (r : exn + A) : exn + B :=
  match r with
  | inl e => inl e
  | inr a => inr (f a)
  end.

Fixpoint all_digits (s : string) : bool :=
  match s with
  | EmptyString => true
  | String c s' => is_digit c && all_digits s'
  end.

Fixpoint has_char (p : ascii → bool) (s : string) : bool :=
  match s with
  | EmptyString => false
  | String c s' => p c || has_char p s'
  end.

Definition is_field_operator (c : ascii) : bool :=
  Ascii.eqb c "!" || Ascii.eqb c ":" || Ascii.eqb c "." || Ascii.eqb c "[".

(** The value substituted for the replacement field [{name}].  The call has
    keyword arguments only, so an empty or numeric field name finds no
    positional argument.  Conversions, format specifications and attribute
    or index access are outside the modelled fragment (no template of this
    file uses them); such a field is reported as malformed. *)
Definition field_value (name : string) (kw : gmap string string) : exn + string :=
  if all_digits name then
    inl (IndexError
           ("Replacement index " +:+ (if String.eqb name EmptyString then "0" else name)
            +:+ " out of range for positional args tuple"))
  else if has_char is_field_operator name then
    inl (ValueError "unsupported replacement field")
  else
    match kw !! name with
    | Some v => inr v
    | None => inl (KeyError name)
    end.

(** One left-to-right pass over the template.  [cur] is [Some name] while
    the characters of a replacement field are being read.  [{{] and [}}]
    are the escapes for braces; substituted text is not scanned again. *)
Fixpoint format_from (s : string) (cur : option string)
    (kw : gmap string string) : exn + string :=
  match cur, s with
  | None, EmptyString => inr EmptyString
  | None, String c s' =>
      if Ascii.eqb c "{" then
        match s' with
        | EmptyString => inl (ValueError "Single '{' encountered in format string")
        | String c' s'' =>
            if Ascii.eqb c' "{" then map_ok (String "{") (format_from s'' None kw)
            else format_from s' (Some EmptyString) kw
        end
      else if Ascii.eqb c "}" then
        match s' with
        | EmptyString => inl (ValueError "Single '}' encountered in format string")
        | String c' s'' =>
            if Ascii.eqb c' "}" then map_ok (String "}") (format_from s'' None kw)
            else inl (ValueError "Single '}' encountered in format string")
        end
      else map_ok (String c) (format_from s' None kw)
  | Some name, EmptyString => inl (ValueError "expected '}' before end of string")
  | Some name, String c s' =>
      if Ascii.eqb c "}" then
        match field_value name kw with
        | inl e => inl e
        | inr v => map_ok (String.append v) (format_from s' None kw)
        end
      else if Ascii.eqb c "{" then
        inl (ValueError "unexpected '{' in field name")
      else format_from s' (Some (name +:+ String c EmptyString)) kw
  end.

(** [template.format] applied to the keyword arguments [kw]. *)
Definition str_format (template : string) (kw : gmap string string) : exn + string :=
  format_from template None kw.

(** ** The chat-completion SDK *)

(** [choices[i].message] of a completed response. *)
Record message := { content : pyval }.
Record completion_choice := { choice_message : message }.

(** [choices[i].delta] of a streamed chunk.  [delta_content] is [None] when
    the object has no attribute [content]; an attribute that is present
    holds a Python value (text, or [None]). *)
Record choice_delta := { delta_content : option pyval }.
Record chunk_choice := { delta : choice_delta; finish_reason : pyval }.
Record chunk := { chunk_choices : list chunk_choice }.

(** What [create] returns: a completed response, or a stream that yields
    [stream_chunks] in order and then either ends or raises
    [stream_failure]. *)
Inductive sdk_response :=
| ChatCompletion (choices : list completion_choice)
| Stream (stream_chunks : list chunk) (stream_failure : option exn).

Inductive sdk_result :=
| SdkRaises (e : exn)
| SdkReturns (response : sdk_response).

(** [ida_kernwin.MFF_WRITE] *)
Definition MFF_WRITE : Z := 2.

(** An instance of the adapter: the model name and the SDK client bound to
    the configured server ([__init__]). *)
Record LiteLLM := {
  model : string;
  client : request → sdk_result
}.

(** [seq[0]] on a Python list. *)
Definition index0 {A} (l : list A) : exn + A :=
  match l with
  | x :: _ => inr x
  | [] => inl (IndexError "list index out of range")
  end.

(** ** Request dispatch: [LiteLLM.query_model] *)

(** A keyword that [create] receives both explicitly and through
    [**additional_model_options].  When several clash, the one Python names
    depends on the order of the options; the model names the first of
    [model], [messages], [stream]. *)
Definition clashing_keyword (opts : gmap string pyval) : option string :=
  if bool_decide (is_Some (opts !! "model")) then Some "model"
  else if bool_decide (is_Some (opts !! "messages")) then Some "messages"
  else if bool_decide (is_Some (opts !! "stream")) then Some "stream"
  else None.

(** [if type(query) is str: conversation = [{...}] else: conversation = query] *)
Definition conversation_of (query : pyval) : pyval :=
  match query with
  | PyStr _ => PyList [PyDict {[ "role" := PyStr "user"; "content" := query ]}]
  | _ => query
  end.

(** [response.choices[0].message.content] *)
Definition first_message_content (response : sdk_response) : exn + pyval :=
  match response with
  | ChatCompletion choices =>
      map_ok (λ c, content (choice_message c)) (index0 choices)
  | Stream _ _ => inl (AttributeError "Stream" "choices")
  end.

(** [delta.content] if [delta] has the attribute [content], else the empty
    string. *)
Definition delta_text (d : choice_delta) : pyval :=
  match delta_content d with
  | Some v => v
  | None => PyStr EmptyString
  end.

Section Dispatch.
(** [gepetto.config._], the lookup in the message catalogue. *)
Variable gettext : string → string.
(** The caller's callback when it is called in place: [cb n args] is the
    exception raised by its [n]-th invocation of the dispatch, if any. *)
Variable cb : nat → list pyval → option exn.
(** The host's [ida_kernwin.execute_sync]: the exception the hand-over
    raises in the calling thread, if any. *)
Variable execute_sync : cb_partial → Z → option exn.

Definition call_cb (n : nat) (args : list pyval) : M unit :=
  emit (EvCallback args);;
  match cb n args with
  | Some e => raise e
  | None => mret tt
  end.

Definition call_execute_sync (f : cb_partial) (flags : Z) : M unit :=
  emit (EvExecuteSync f flags);;
  match execute_sync f flags with
  | Some e => raise e
  | None => mret tt
  end.

Definition print (line : string) : M unit := emit (EvPrint line).

(** [print(template.format(...))] *)
Definition print_format (template : string) (kw : gmap string string) : M unit :=
  line ← lift (str_format template kw); print line.

(** [self.client.chat.completions.create(model=self.model,
    messages=conversation, stream=stream, **additional_model_options)] *)
Definition create (self : LiteLLM) (conversation : pyval) (stream : bool)
    (opts : gmap string pyval) : M sdk_response :=
  match clashing_keyword opts with
  | Some k =>
      raise (TypeError ("Completions.create() got multiple values for keyword argument '"
                        +:+ k +:+ "'"))
  | None =>
      let r := {| req_model := model self; req_messages := conversation;
                  req_stream := stream; req_extra := opts |} in
      emit (EvRequest r);;
      match client self r with
      | SdkRaises e => raise e
      | SdkReturns response => mret response
      end
  end.

(** [for chunk in response: ...]; [n] callbacks were made before. *)
Fixpoint for_chunks (n : nat) (chunks : list chunk) (failure : option exn)
    : M unit :=
  match chunks with
  | [] =>
      match failure with
      | Some e => raise e
      | None => mret tt
      end
  | chunk :: rest =>
      choice ← lift (index0 (chunk_choices chunk));
      let finished := finish_reason choice in
      let content := delta_text (delta choice) in
      call_cb n [content; finished];;
      for_chunks (S n) rest failure
  end.

(** Iterating a completed response yields its fields as pairs, which have
    no [choices]. *)
Definition iterate (response : sdk_response) : M unit :=
  match response with
  | Stream chunks failure => for_chunks 0 chunks failure
  | ChatCompletion _ => raise (AttributeError "tuple" "choices")
  end.

(** The two branches of [if not stream: ... else: ...]: what is done with
    the response once the SDK call returned. *)
Definition deliver (stream : bool) (response : sdk_response) : M unit :=
  if negb stream then
    text ← lift (first_message_content response);
    call_execute_sync {| partial_kwargs := {[ "response" := text ]} |} MFF_WRITE
  else
    iterate response.

(** The body of the [try] statement. *)
Definition query_model_try (self : LiteLLM) (query : pyval) (stream : bool)
    (opts : gmap string pyval) : M unit :=
  let conversation := conversation_of query in
  response ← create self conversation stream opts;
  deliver stream response.

(** The [except] clauses, tried in order.  An exception that no clause
    matches, or one raised inside a handler, leaves [query_model]. *)
Definition query_model_except (self : LiteLLM) (e : exn) : M unit :=
  if isinstance e BadRequestError then
    if re_search context_length_pattern (exn_str e) then
      print (gettext "Unfortunately, this function is too big to be analyzed with the model's current API limits.")
    else
      print_format (gettext "General exception encountered while running the query: {error}")
        {[ "error" := exn_str e ]}
  else if isinstance e OpenAIError then
    print_format (gettext "{model} could not complete the request: {error}")
      {[ "model" := model self; "error" := exn_str e ]}
  else if isinstance e Exception then
    print_format (gettext "General exception encountered while running the query: {error}")
      {[ "error" := exn_str e ]}
  else raise e.

Definition try_except {A} (body : M A) (handler : exn → M A) : M A :=
  match body with
  | (tr, inl e) => let '(tr', r) := handler e in (tr ++ tr', r)
  | (tr, inr a) => (tr, inr a)
  end.

(** [query_model(self, query, cb, stream, additional_model_options)]:
    the trace of the call, and [inr tt] when it returns or [inl e] when
    [e] reaches the caller. *)
Definition query_model (self : LiteLLM) (query : pyval) (stream : bool)
    (additional_model_options : option (gmap string pyval)) : M unit :=
  let additional_model_options := default ∅ additional_model_options in
  try_except (query_model_try self query stream additional_model_options)
             (query_model_except self).

End Dispatch.

(** ** Reading a trace *)

(** How an invocation reaches the callback: called in place by the
    dispatching thread, or handed to the host through [execute_sync], which
    runs it once in the thread that owns the user interface. *)
Inductive delivery := InPlace | ViaExecuteSync (flags : Z).

Record invocation := {
  inv_via : delivery;
  inv_args : list pyval;
  inv_kwargs : gmap string pyval
}.

Definition invocation_of (ev : event) : option invocation :=
  match ev with
  | EvCallback args =>
      Some {| inv_via := InPlace; inv_args := args; inv_kwargs := ∅ |}
  | EvExecuteSync f flags =>
      Some {| inv_via := ViaExecuteSync flags; inv_args := [];
              inv_kwargs := partial_kwargs f |}
  | _ => None
  end.

Definition callback_invocations (tr : list event) : list invocation :=
  omap invocation_of tr.

Definition request_of (ev : event) : option request :=
  match ev with EvRequest r => Some r | _ => None end.
Definition outbound_requests (tr : list event) : list request :=
  omap request_of tr.

Definition line_of (ev : event) : option string :=
  match ev with EvPrint line => Some line | _ => None end.
Definition printed (tr : list event) : list string :=
  omap line_of tr.

(** ** Model discovery: [supported_models] and [is_configured_properly] *)

#[global] Instance result_ret : MRet (sum exn) := λ A a, inr a.
#[global] Instance result_bind : MBind (sum exn) := λ A B k r,
  match r with
  | inl e => inl e
  | inr a => k a
  end.

(** A [requests.Response]: the status code and what [json()] gives, the
    decoded body or the exception of the decoder. *)
Record response := { status_code : Z; json : exn + pyval }.

Inductive http_result :=
| GetRaises (e : exn)
| GetReturns (r : response).

Definition HTTPError (msg : string) : exn :=
  {| exn_mro := [OtherClass "HTTPError"; RequestException; OtherClass "OSError";
                 Exception; BaseException];
     exn_str := msg |}.

(** [response.raise_for_status()]: client and server error codes raise. *)
Definition raise_for_status (r : response) (url : string) : exn + unit :=
  if (400 <=? status_code r) && (status_code r <? 500) then
    inl (HTTPError ("Client Error for url: " +:+ url))
  else if (500 <=? status_code r) && (status_code r <? 600) then
    inl (HTTPError ("Server Error for url: " +:+ url))
  else inr tt.

(** [v.get(key, default)] *)
Definition py_get (v : pyval) (key : string) (dflt : pyval) : exn + pyval :=
  match v with
  | PyDict d => inr (default dflt (d !! key))
  | _ => inl (AttributeError (type_name v) "get")
  end.

(** [v[key]] for a string [key] *)
Definition py_getitem (v : pyval) (key : string) : exn + pyval :=
  match v with
  | PyDict d =>
      match d !! key with
      | Some x => inr x
      | None => inl (KeyError key)
      end
  | PyList _ => inl (TypeError "list indices must be integers or slices, not str")
  | PyStr _ | PyStrSub _ _ => inl (TypeError "string indices must be integers, not 'str'")
  | _ => inl (TypeError ("'" +:+ type_name v +:+ "' object is not subscriptable"))
  end.

Fixpoint characters (s : string) : list pyval :=
  match s with
  | EmptyString => []
  | String c s' => PyStr (String c EmptyString) :: characters s'
  end.

(** The elements a [for] clause draws from [v]. *)
Definition py_iter (v : pyval) : exn + list pyval :=
  match v with
  | PyList xs => inr xs
  | PyDict d => inr (PyStr <$> (map_to_list d).*1)
  | PyStr s | PyStrSub _ s => inr (characters s)
  | _ => inl (TypeError ("'" +:+ type_name v +:+ "' object is not iterable"))
  end.

(** [[model["id"] for model in entries if model.get("object") == "model"]] *)
Fixpoint model_ids (entries : list pyval) : exn + list pyval :=
  match entries with
  | [] => inr []
  | entry :: rest =>
      object ← py_get entry "object" PyNone;
      if py_eq_str object "model" then
        id ← py_getitem entry "id";
        ids ← model_ids rest;
        mret (id :: ids)
      else model_ids rest
  end.

(** [not link] for the value of the server setting. *)
Definition unset (link : option string) : bool :=
  match link with
  | None => true
  | Some s => String.eqb s EmptyString
  end.

Section Discovery.
(** [LiteLLM.get_server()], the configured server address. *)
Variable get_server : option string.
(** [requests.get] *)
Variable requests_get : string → http_result.

(** The body of the [try] statement of [supported_models]. *)
Definition supported_models_try : exn + list pyval :=
  let link := get_server in
  if unset link then inr []
  else
    let url := default EmptyString link +:+ "/models" in
    match requests_get url with
    | GetRaises e => inl e
    | GetReturns r =>
        raise_for_status r url;;
        body ← json r;
        data ← py_get body "data" (PyList []);
        entries ← py_iter data;
        model_ids entries
    end.

Definition supported_models : exn + list pyval :=
  match supported_models_try with
  | inl e => if isinstance e RequestException then inr [] else inl e
  | inr models => inr models
  end.

(** [len(LiteLLM.supported_models()) > 0] *)
Definition is_configured_properly : exn + bool :=
  models ← supported_models;
  mret (0 <? Z.of_nat (length models)).

End Discovery.

(** *** The result of discovery in the words of the specification *)

Definition entry_field (key : string) (entry : pyval) : option pyval :=
  match entry with
  | PyDict d => d !! key
  | _ => None
  end.

(** An entry whose [object] field equals ["model"]. *)
Definition is_model_entry (entry : pyval) : bool :=
  match entry_field "object" entry with
  | Some v => py_eq_str v "model"
  | None => false
  end.

(** [ids] are the [id] fields of the model entries of [entries], in order. *)
Definition ids_of_model_entries (entries ids : list pyval) : Prop :=
  Forall2 (λ entry id, entry_field "id" entry = Some id)
          (List.filter is_model_entry entries) ids.

(** The shape of the [data] array that the endpoint documents: every entry
    is an object, and an entry that is a model has an [id]. *)
Definition listed_entry (entry : pyval) : Prop :=
  (∃ d, entry = PyDict d) ∧
  (is_model_entry entry = true → is_Some (entry_field "id" entry)).

(** *** The context-length pattern in the words of the specification *)

(** The strings a pattern matches as a whole. *)
Inductive re_lang : list ritem → string → Prop :=
| lang_nil : re_lang [] EmptyString
| lang_char c p s : re_lang p s → re_lang (RChar c :: p) (String c s)
| lang_digit c p s :
    is_digit c = true → re_lang p s → re_lang (RDigits :: p) (String c s)
| lang_digits c p s :
    is_digit c = true → re_lang (RDigits :: p) s →
    re_lang (RDigits :: p) (String c s).

(** A number: a non-empty string of decimal digits. *)
Definition decimal (n : string) : Prop :=
  n ≠ EmptyString ∧ all_digits n = true.

(** The message contains "maximum context length is N tokens, however you
    requested M tokens" for numbers N and M. *)
Definition context_length_message (msg : string) : Prop :=
  ∃ pre n m post,
    decimal n ∧ decimal m ∧
    msg = pre +:+ "maximum context length is " +:+ n +:+
          " tokens, however you requested " +:+ m +:+ " tokens" +:+ post.

(** *** Conditions on a dispatch *)

(** The SDK call of the dispatch raises [e]. *)
Definition sdk_call_raises (self : LiteLLM) (query : pyval) (stream : bool)
    (opts : option (gmap string pyval)) (e : exn) : Prop :=
  ∃ tr, create self (conversation_of query) stream (default ∅ opts) = (tr, inl e).

(** The SDK call of the dispatch returns [response]. *)
Definition sdk_call_returns (self : LiteLLM) (query : pyval) (stream : bool)
    (opts : option (gmap string pyval)) (response : sdk_response) : Prop :=
  ∃ tr, create self (conversation_of query) stream (default ∅ opts)
        = (tr, inr response).

(** A context-length-exceeded error, as [query_model] recognises it. *)
Definition context_length_exceeded (e : exn) : bool :=
  isinstance e BadRequestError && re_search context_length_pattern (exn_str e).

(** A catalogue whose translations keep the replacement fields usable: a
    translated template formats whenever the original does. *)
Definition catalogue_ok (gettext : string → string) : Prop :=
  ∀ template kw line,
    str_format template kw = inr line →
    ∃ line', str_format (gettext template) kw = inr line'.

(** *** Sample inputs *)

Module Sample.

(** No catalogue installed: messages are printed as written. *)
Definition untranslated (s : string) : string := s.

Definition quiet_cb (n : nat) (args : list pyval) : option exn := None.
Definition quiet_gate (f : cb_partial) (flags : Z) : option exn := None.

Definition api_error (name msg : string) : exn :=
  {| exn_mro := [OtherClass name; OtherClass "APIStatusError"; OtherClass "APIError";
                 OpenAIError; Exception; BaseException];
     exn_str := msg |}.

Definition bad_request (msg : string) : exn :=
  {| exn_mro := [BadRequestError; OtherClass "APIStatusError"; OtherClass "APIError";
                 OpenAIError; Exception; BaseException];
     exn_str := msg |}.

Definition connection_error (msg : string) : exn :=
  {| exn_mro := [OtherClass "ConnectionError"; RequestException; OtherClass "OSError";
                 Exception; BaseException];
     exn_str := msg |}.

Definition too_long : string :=
  "This model's maximum context length is 4097 tokens, however you requested 5000 tokens.".

(** An adapter whose SDK call always raises [e]. *)
Definition failing (e : exn) : LiteLLM :=
  {| model := "gpt-x"; client := λ _, SdkRaises e |}.

Definition answering (text : string) : LiteLLM :=
  {| model := "gpt-x";
     client := λ _, SdkReturns
       (ChatCompletion [ {| choice_message := {| content := PyStr text |} |} ]) |}.

Definition a_chunk (text : option pyval) (finished : pyval) : chunk :=
  {| chunk_choices :=
       [ {| delta := {| delta_content := text |}; finish_reason := finished |} ] |}.

(** Two content deltas, then a final chunk with a finish marker and no
    content. *)
Definition three_chunks : list chunk :=
  [ a_chunk (Some (PyStr "Hel")) PyNone;
    a_chunk (Some (PyStr "lo")) PyNone;
    a_chunk None (PyStr "stop") ].

Definition streaming : LiteLLM :=
  {| model := "gpt-x"; client := λ _, SdkReturns (Stream three_chunks None) |}.

Definition user_message (s : string) : pyval :=
  PyDict {[ "role" := PyStr "user"; "content" := PyStr s ]}.

Definition listing : list pyval :=
  [ PyDict {[ "id" := PyStr "gpt-x"; "object" := PyStr "model" ]};
    PyDict {[ "id" := PyStr "ignore-me"; "object" := PyStr "other" ]} ].

Definition listing_body : gmap string pyval := {[ "data" := PyList listing ]}.

Definition serving (status : Z) (body : exn + pyval) (url : string) : http_result :=
  GetReturns {| status_code := status; json := body |}.

Definition unreachable (url : string) : http_result :=
  GetRaises (connection_error "Connection refused").

End Sample.

(** *** Text within ASCII *)

(** Every character is below 128.  On such text a Python [str] and its
    bytes coincide, and the only characters that [\d] matches are [0]..[9],
    so that [re_search] decides what [re.search] decides. *)
Fixpoint ascii_text (s : string) : bool :=
  match s with
  | EmptyString => true
  | String c s' => (nat_of_ascii c <? 128)%nat && ascii_text s'
  end.

(** *** Inputs at the edges *)

Module Edge.

(** An interrupt: not an [Exception]. *)
Definition keyboard_interrupt : exn :=
  {| exn_mro := [OtherClass "KeyboardInterrupt"; BaseException];
     exn_str := EmptyString |}.

(** A failure outside the SDK's own classes. *)
Definition timeout_error (msg : string) : exn :=
  {| exn_mro := [OtherClass "TimeoutError"; OtherClass "OSError"; Exception;
                 BaseException];
     exn_str := msg |}.

(** The decoder's error as [requests] raises it. *)
Definition json_decode_error (msg : string) : exn :=
  {| exn_mro := [OtherClass "JSONDecodeError"; OtherClass "InvalidJSONError";
                 RequestException; OtherClass "OSError"; Exception; BaseException];
     exn_str := msg |}.

(** An adapter whose SDK call returns a response without choices. *)
Definition no_choices : LiteLLM :=
  {| model := "gpt-x"; client := λ _, SdkReturns (ChatCompletion []) |}.

(** A stream that breaks after its first two chunks. *)
Definition breaking : LiteLLM :=
  {| model := "gpt-x";
     client := λ _, SdkReturns
       (Stream [ Sample.a_chunk (Some (PyStr "Hel")) PyNone;
                 Sample.a_chunk (Some (PyStr "lo")) PyNone ]
               (Some (Sample.api_error "APIConnectionError" "Connection error."))) |}.

(** A model entry without an [id]. *)
Definition nameless : pyval := PyDict {[ "object" := PyStr "model" ]}.

End Edge.

(** * Properties *)

(** ** Strings *)

Lemma append_cons c (s t : string) : String c s +:+ t = String c (s +:+ t).
Proof. reflexivity. Qed.

Lemma append_empty_l (t : string) : EmptyString +:+ t = t.
Proof. reflexivity. Qed.

Lemma append_empty_r (s : string) : s +:+ EmptyString = s.
Proof.
  induction s as [|c s IH]; [done|]. by rewrite append_cons, IH.
Qed.

Lemma append_assoc (s1 s2 s3 : string) :
  (s1 +:+ s2) +:+ s3 = s1 +:+ (s2 +:+ s3).
Proof.
  induction s1 as [|c s1 IH]; [done|]. by rewrite !append_cons, IH.
Qed.

Ltac norm_append := rewrite ?append_cons, ?append_empty_l.

(** ** The matcher against the language of a pattern *)

Lemma re_match_sound p s :
  re_match p s = true → ∃ s1 s2, s = s1 +:+ s2 ∧ re_lang p s1.
Proof.
  revert p. induction s as [|c s IH]; intros [|[c0|] p] Hm; simpl in Hm;
    try discriminate.
  - exists EmptyString, EmptyString. split; [done | constructor].
  - exists EmptyString, (String c s). split; [done | constructor].
  - destruct (Ascii.eqb_spec c0 c) as [->|]; [|discriminate].
    destruct (IH _ Hm) as (s1 & s2 & -> & Hl).
    exists (String c s1), s2. split; [done | by constructor].
  - apply andb_true_iff in Hm as [Hd Hm].
    apply orb_true_iff in Hm as [Hm|Hm];
      destruct (IH _ Hm) as (s1 & s2 & -> & Hl);
      exists (String c s1), s2; (split; [done|]).
    + by apply lang_digits.
    + by apply lang_digit.
Qed.

Lemma re_match_complete p s1 s2 :
  re_lang p s1 → re_match p (s1 +:+ s2) = true.
Proof.
  induction 1 as [|c p s _ IH|c p s Hd _ IH|c p s Hd _ IH];
    norm_append; simpl.
  - by destruct s2.
  - by rewrite Ascii.eqb_refl.
  - rewrite Hd, IH. simpl. apply orb_true_r.
  - by rewrite Hd, IH.
Qed.

Lemma re_search_unfold p s :
  re_search p s =
  re_match p s || match s with
                  | EmptyString => false
                  | String _ s' => re_search p s'
                  end.
Proof. by destruct s. Qed.

Lemma re_search_sound p s :
  re_search p s = true → ∃ pre s1 post, s = pre +:+ s1 +:+ post ∧ re_lang p s1.
Proof.
  induction s as [|c s IH]; rewrite re_search_unfold; intros Hs.
  - rewrite orb_false_r in Hs.
    destruct (re_match_sound _ _ Hs) as (s1 & s2 & -> & Hl).
    by exists EmptyString, s1, s2.
  - apply orb_true_iff in Hs as [Hm|Hs].
    + destruct (re_match_sound _ _ Hm) as (s1 & s2 & Heq & Hl).
      by exists EmptyString, s1, s2.
    + destruct (IH Hs) as (pre & s1 & post & -> & Hl).
      by exists (String c pre), s1, post.
Qed.

Lemma re_search_complete p pre s1 post :
  re_lang p s1 → re_search p (pre +:+ s1 +:+ post) = true.
Proof.
  intros Hl. induction pre as [|c pre IH]; norm_append.
  - by rewrite re_search_unfold, (re_match_complete _ _ _ Hl).
  - rewrite re_search_unfold, IH. apply orb_true_r.
Qed.

Lemma re_lang_lit a p s : re_lang p s → re_lang (rlit a ++ p) (a +:+ s).
Proof.
  intros Hl. induction a as [|c a IH]; norm_append; simpl; [done|].
  by apply lang_char.
Qed.

Lemma re_lang_lit_inv a p s :
  re_lang (rlit a ++ p) s → ∃ s', s = a +:+ s' ∧ re_lang p s'.
Proof.
  revert s. induction a as [|c a IH]; simpl; intros s Hl.
  - by exists s.
  - inversion Hl as [|? ? s0 Hl'| |]; subst.
    destruct (IH _ Hl') as (s' & -> & ?). by exists s'.
Qed.

Lemma re_lang_decimal n p s :
  decimal n → re_lang p s → re_lang (RDigits :: p) (n +:+ s).
Proof.
  intros [Hne Hd] Hl. induction n as [|c n IH]; [done|].
  simpl in Hd. apply andb_true_iff in Hd as [Hc Hd]. norm_append.
  destruct n as [|c' n'].
  - by apply lang_digit.
  - apply lang_digits; [done|]. by apply IH.
Qed.

Lemma re_lang_decimal_inv p s :
  re_lang (RDigits :: p) s → ∃ n s', s = n +:+ s' ∧ decimal n ∧ re_lang p s'.
Proof.
  remember (RDigits :: p) as q eqn:Hq. induction 1 as [| |c p0 s Hd Hl _|c p0 s Hd Hl IH];
    try discriminate; injection Hq as ->.
  - exists (String c EmptyString), s. repeat split; [done | | done].
    simpl. by rewrite Hd.
  - destruct (IH eq_refl) as (n & s' & -> & [_ Hn] & Hl').
    exists (String c n), s'. repeat split; [done | | done].
    simpl. by rewrite Hd, Hn.
Qed.

(** [re.search] with the pattern of the source finds exactly the messages
    that contain the phrase with two numbers. *)
Lemma context_length_pattern_spec msg :
  re_search context_length_pattern msg = true ↔ context_length_message msg.
Proof.
  unfold context_length_pattern, context_length_message. split.
  - intros Hs. apply re_search_sound in Hs as (pre & s1 & post & -> & Hl).
    apply re_lang_lit_inv in Hl as (s2 & -> & Hl).
    apply re_lang_decimal_inv in Hl as (n & s3 & -> & Hn & Hl).
    apply re_lang_lit_inv in Hl as (s4 & -> & Hl).
    apply re_lang_decimal_inv in Hl as (m & s5 & -> & Hm & Hl).
    rewrite <- (app_nil_r (rlit _)) in Hl.
    apply re_lang_lit_inv in Hl as (s6 & -> & Hl).
    inversion Hl; subst.
    exists pre, n, m, post. repeat split; try apply Hn; try apply Hm.
    by rewrite append_empty_r, !append_assoc.
  - intros (pre & n & m & post & Hn & Hm & ->).
    replace (pre +:+ "maximum context length is " +:+ n +:+
             " tokens, however you requested " +:+ m +:+ " tokens" +:+ post)
      with (pre +:+ ("maximum context length is " +:+ n +:+
             " tokens, however you requested " +:+ m +:+ " tokens") +:+ post)
      by (by rewrite !append_assoc).
    apply re_search_complete.
    apply re_lang_lit, re_lang_decimal; [done|].
    apply re_lang_lit, re_lang_decimal; [done|].
    simpl. repeat constructor.
Qed.

(** ** The messages of [query_model] *)

Lemma format_general_exception (err : string) :
  str_format "General exception encountered while running the query: {error}"
             {[ "error" := err ]}
  = inr ("General exception encountered while running the query: " +:+ err).
Proof.
  vm_compute.
  by rewrite append_empty_r.
Qed.

Lemma format_could_not_complete (name err : string) :
  str_format "{model} could not complete the request: {error}"
             {[ "model" := name; "error" := err ]}
  = inr (name +:+ " could not complete the request: " +:+ err).
Proof.
  rewrite <- (append_empty_r err) at 2. vm_compute. reflexivity.
Qed.

(** ** The SDK call *)

Lemma create_cases self conversation stream opts :
  (∃ k, clashing_keyword opts = Some k ∧
        create self conversation stream opts =
          ([], inl (TypeError ("Completions.create() got multiple values for keyword argument '"
                               +:+ k +:+ "'")))) ∨
  (clashing_keyword opts = None ∧
   ∃ r, r = {| req_model := model self; req_messages := conversation;
               req_stream := stream; req_extra := opts |} ∧
        create self conversation stream opts =
          ([EvRequest r],
           match client self r with
           | SdkRaises e => inl e
           | SdkReturns response => inr response
           end)).
Proof.
  unfold create. destruct (clashing_keyword opts) as [k|].
  - left. by exists k.
  - right. split; [done|]. eexists. split; [done|].
    by destruct (client self _).
Qed.

(** The call adds nothing but the request to the trace. *)
Lemma create_trace self conversation stream opts tr r :
  create self conversation stream opts = (tr, r) →
  callback_invocations tr = [] ∧ printed tr = [].
Proof.
  destruct (create_cases self conversation stream opts)
    as [(k & _ & ->)|(_ & q & _ & ->)]; by intros [= <- <-].
Qed.

Lemma callback_invocations_app tr1 tr2 :
  callback_invocations (tr1 ++ tr2)
  = callback_invocations tr1 ++ callback_invocations tr2.
Proof. apply omap_app. Qed.

Lemma printed_app tr1 tr2 : printed (tr1 ++ tr2) = printed tr1 ++ printed tr2.
Proof. apply omap_app. Qed.

Lemma outbound_requests_app tr1 tr2 :
  outbound_requests (tr1 ++ tr2) = outbound_requests tr1 ++ outbound_requests tr2.
Proof. apply omap_app. Qed.

(** ** The handlers *)

Section Handlers.
Variable gettext : string → string.
Variable cb : nat → list pyval → option exn.
Variable execute_sync : cb_partial → Z → option exn.

(** When the SDK call raises, [query_model] is the handler run after the
    trace of the call. *)
Lemma query_model_raises self query stream opts tr e :
  create self (conversation_of query) stream (default ∅ opts) = (tr, inl e) →
  query_model gettext cb execute_sync self query stream opts
  = (tr ++ (query_model_except gettext self e).1,
     (query_model_except gettext self e).2).
Proof.
  intros Hc. unfold query_model, query_model_try, try_except.
  unfold mbind at 1, M_bind. rewrite Hc.
  by destruct (query_model_except gettext self e).
Qed.

(** A handler prints or re-raises; it calls nothing and requests nothing. *)
Lemma print_format_cases template kw :
  (∃ line, str_format template kw = inr line ∧
           print_format template kw = ([EvPrint line], inr tt)) ∨
  (∃ e, str_format template kw = inl e ∧ print_format template kw = ([], inl e)).
Proof.
  unfold print_format. destruct (str_format template kw) as [e|line].
  - right. by exists e.
  - left. by exists line.
Qed.

Lemma print_format_trace template kw :
  callback_invocations (print_format template kw).1 = [] ∧
  outbound_requests (print_format template kw).1 = [].
Proof.
  by destruct (print_format_cases template kw)
    as [(line & _ & ->)|(e & _ & ->)].
Qed.

Lemma query_model_except_trace self e :
  callback_invocations (query_model_except gettext self e).1 = [] ∧
  outbound_requests (query_model_except gettext self e).1 = [].
Proof.
  unfold query_model_except.
  repeat case_match; try apply print_format_trace; done.
Qed.

Lemma print_format_ok template kw line :
  catalogue_ok gettext →
  str_format template kw = inr line →
  ∃ line', str_format (gettext template) kw = inr line' ∧
           print_format (gettext template) kw = ([EvPrint line'], inr tt).
Proof.
  intros Hok Hf. destruct (Hok _ _ _ Hf) as [line' Hf'].
  exists line'. split; [done|]. unfold print_format. by rewrite Hf'.
Qed.

End Handlers.

(** ** Delivery of the response *)

Section Delivery.
Variable gettext : string → string.
Variable cb : nat → list pyval → option exn.
Variable execute_sync : cb_partial → Z → option exn.

Lemma query_model_returns self query stream opts tr response :
  create self (conversation_of query) stream (default ∅ opts)
    = (tr, inr response) →
  query_model gettext cb execute_sync self query stream opts
  = try_except (tr ++ (deliver cb execute_sync stream response).1,
                (deliver cb execute_sync stream response).2)
               (query_model_except gettext self).
Proof.
  intros Hc. unfold query_model, query_model_try.
  unfold mbind at 1, M_bind. rewrite Hc.
  by destruct (deliver cb execute_sync stream response).
Qed.

(** The handlers do not add callback invocations. *)
Lemma try_except_invocations self (body : M unit) :
  callback_invocations (try_except body (query_model_except gettext self)).1
  = callback_invocations body.1.
Proof.
  destruct body as [tr [e|[]]]; simpl; [|done].
  pose proof (query_model_except_trace gettext self e) as [Hi _].
  destruct (query_model_except gettext self e) as [tr' r]. simpl in *.
  by rewrite callback_invocations_app, Hi, app_nil_r.
Qed.

(** The loop over the chunks when every chunk has a first choice and the
    callback returns normally: one callback per chunk, in order, and the
    loop ends the way the stream ends. *)
Lemma for_chunks_run n chunks failure firsts :
  Forall2 (λ c ch, head (chunk_choices c) = Some ch) chunks firsts →
  (∀ i ch, firsts !! i = Some ch →
           cb (n + i) [delta_text (delta ch); finish_reason ch] = None) →
  for_chunks cb n chunks failure
  = ((λ ch, EvCallback [delta_text (delta ch); finish_reason ch]) <$> firsts,
     match failure with
     | Some e => inl e
     | None => inr tt
     end).
Proof.
  intros Hf. revert n. induction Hf as [|c ch chunks firsts Hhd _ IH];
    intros n Hcb; simpl.
  - by destruct failure.
  - destruct (chunk_choices c) as [|ch0 others]; simplify_eq/=.
    pose proof (Hcb 0%nat ch eq_refl) as H0. rewrite Nat.add_0_r in H0.
    unfold call_cb. rewrite H0. cbn. rewrite IH; [done|].
    intros i ch' Hi.
    replace (S n + i)%nat with (n + S i)%nat by lia. by apply Hcb.
Qed.

End Delivery.

(** ** The outbound request *)

Section Requests.
Variable gettext : string → string.
Variable cb : nat → list pyval → option exn.
Variable execute_sync : cb_partial → Z → option exn.

Lemma for_chunks_requests n chunks failure :
  outbound_requests (for_chunks cb n chunks failure).1 = [].
Proof.
  revert n. induction chunks as [|c chunks IH]; intros n; simpl.
  - by destruct failure.
  - destruct (chunk_choices c) as [|ch others]; [done|]. simpl.
    unfold call_cb. specialize (IH (S n)).
    destruct (cb n _); [done|]. cbn.
    by destruct (for_chunks cb (S n) chunks failure).
Qed.

Lemma deliver_requests stream response :
  outbound_requests (deliver cb execute_sync stream response).1 = [].
Proof.
  unfold deliver. destruct stream; simpl.
  - destruct response; [done|]. apply for_chunks_requests.
  - destruct response as [[|c cs]|]; try done.
    simpl. unfold call_execute_sync. by destruct (execute_sync _ _).
Qed.

(** A dispatch issues one request, with the normalised conversation as
    its messages, unless the options clash with an explicit keyword. *)
Lemma query_model_requests self query stream opts :
  outbound_requests (query_model gettext cb execute_sync self query stream opts).1
  = match clashing_keyword (default ∅ opts) with
    | Some _ => []
    | None => [ {| req_model := model self;
                   req_messages := conversation_of query;
                   req_stream := stream;
                   req_extra := default ∅ opts |} ]
    end.
Proof.
  destruct (create_cases self (conversation_of query) stream (default ∅ opts))
    as [(k & -> & Hc)|(-> & r & -> & Hc)].
  - rewrite (query_model_raises _ _ _ _ _ _ _ _ _ Hc). simpl.
    apply query_model_except_trace.
  - destruct (client self _) as [e|response].
    + rewrite (query_model_raises _ _ _ _ _ _ _ _ _ Hc). simpl.
      by rewrite (proj2 (query_model_except_trace gettext self e)).
    + rewrite (query_model_returns _ _ _ _ _ _ _ _ _ Hc).
      pose proof (deliver_requests stream response) as Hd.
      destruct (deliver cb execute_sync stream response) as [tr [e|[]]];
        simpl in *; [|by rewrite Hd].
      pose proof (query_model_except_trace gettext self e) as [_ He].
      destruct (query_model_except gettext self e) as [tr' r']. simpl in *.
      by rewrite outbound_requests_app, Hd, He.
Qed.

End Requests.

(** ** Streaming dispatch *)

(** C1, as the code has it.  In a streaming dispatch whose SDK call returns
    a stream, where every chunk has a first choice and the callback returns
    normally, the callback is invoked in place exactly once per chunk, in
    the order the chunks arrive.  The first argument is the content of the
    chunk's delta, and the empty string when the delta has no content
    attribute; the second is the chunk's finish marker, as the chunk carries
    it. *)
Theorem streaming_callback_once_per_chunk gettext cb execute_sync
    self query opts chunks failure firsts :
  sdk_call_returns self query true opts (Stream chunks failure) →
  Forall2 (λ c ch, head (chunk_choices c) = Some ch) chunks firsts →
  (∀ i ch, firsts !! i = Some ch →
           cb i [delta_text (delta ch); finish_reason ch] = None) →
  callback_invocations
    (query_model gettext cb execute_sync self query true opts).1
  = (λ ch, {| inv_via := InPlace;
              inv_args := [ match delta_content (delta ch) with
                            | Some text => text
                            | None => PyStr EmptyString
                            end;
                            finish_reason ch ];
              inv_kwargs := ∅ |}) <$> firsts.
Proof.
  intros [tr Hc] Hfirst Hcb.
  rewrite (query_model_returns _ _ _ _ _ _ _ _ _ Hc), try_except_invocations.
  simpl. rewrite callback_invocations_app.
  rewrite (proj1 (create_trace _ _ _ _ _ _ Hc)). simpl.
  change (deliver cb execute_sync true (Stream chunks failure))
    with (for_chunks cb 0 chunks failure).
  rewrite (for_chunks_run cb 0 chunks failure firsts Hfirst Hcb). simpl.
  clear. induction firsts as [|ch firsts IH]; [done|].
  unfold callback_invocations in *. simpl in *. by f_equal.
Qed.

Lemma streaming_callback_once_per_chunk_witness :
  sdk_call_returns Sample.streaming (PyStr "hello") true None
    (Stream Sample.three_chunks None) ∧
  callback_invocations
    (query_model Sample.untranslated Sample.quiet_cb Sample.quiet_gate
       Sample.streaming (PyStr "hello") true None).1
  = [ {| inv_via := InPlace; inv_args := [PyStr "Hel"; PyNone]; inv_kwargs := ∅ |};
      {| inv_via := InPlace; inv_args := [PyStr "lo"; PyNone]; inv_kwargs := ∅ |};
      {| inv_via := InPlace; inv_args := [PyStr EmptyString; PyStr "stop"];
         inv_kwargs := ∅ |} ].
Proof.
  assert (sdk_call_returns Sample.streaming (PyStr "hello") true None
            (Stream Sample.three_chunks None)) as Hret.
  { eexists. reflexivity. }
  split; [exact Hret|].
  apply (streaming_callback_once_per_chunk Sample.untranslated Sample.quiet_cb
           Sample.quiet_gate Sample.streaming (PyStr "hello") None
           Sample.three_chunks None
           [ {| delta := {| delta_content := Some (PyStr "Hel") |};
                finish_reason := PyNone |};
             {| delta := {| delta_content := Some (PyStr "lo") |};
                finish_reason := PyNone |};
             {| delta := {| delta_content := None |};
                finish_reason := PyStr "stop" |} ]).
  - exact Hret.
  - repeat constructor.
  - reflexivity.
Defined.

(** C1 as stated fails, for each of the two conditions it leaves out.  A
    chunk without choices ends the loop although the callback returns: of
    three chunks only the first is delivered.  A callback that raises ends
    the loop although every chunk has a first choice: of three chunks only
    the first two are delivered. *)
Lemma streaming_once_per_chunk_counterexample :
  ¬ (∀ cb execute_sync self query opts chunks failure,
       sdk_call_returns self query true opts (Stream chunks failure) →
       (∀ n args, cb n args = None) →
       length (callback_invocations
                 (query_model Sample.untranslated cb execute_sync
                    self query true opts).1)
       = length chunks) ∧
  ¬ (∀ cb execute_sync self query opts chunks failure,
       sdk_call_returns self query true opts (Stream chunks failure) →
       Forall (λ c, chunk_choices c ≠ []) chunks →
       length (callback_invocations
                 (query_model Sample.untranslated cb execute_sync
                    self query true opts).1)
       = length chunks).
Proof.
  split; intros H.
  - specialize (H Sample.quiet_cb Sample.quiet_gate
                  {| model := "gpt-x";
                     client := λ _, SdkReturns
                       (Stream [ Sample.a_chunk (Some (PyStr "Hel")) PyNone;
                                 {| chunk_choices := [] |};
                                 Sample.a_chunk (Some (PyStr "lo")) PyNone ]
                               None) |}
                  (PyStr "hello") None
                  [ Sample.a_chunk (Some (PyStr "Hel")) PyNone;
                    {| chunk_choices := [] |};
                    Sample.a_chunk (Some (PyStr "lo")) PyNone ]
                  None).
    assert (1 = 3)%nat as Hlen; [|discriminate Hlen].
    apply H; [eexists; reflexivity | reflexivity].
  - specialize (H (λ n _, if decide (n = 1%nat) then Some (ValueError "no")
                          else None)
                  Sample.quiet_gate Sample.streaming (PyStr "hello") None
                  Sample.three_chunks None).
    assert (2 = 3)%nat as Hlen; [|discriminate Hlen].
    apply H; [eexists; reflexivity | repeat constructor; discriminate].
Qed.

(** The default of the content applies to a delta without the attribute
    only: a delta whose [content] is [None] reaches the callback as [None]. *)
Example content_none_reaches_the_callback :
  callback_invocations
    (query_model Sample.untranslated Sample.quiet_cb Sample.quiet_gate
       {| model := "gpt-x";
          client := λ _, SdkReturns
            (Stream [ Sample.a_chunk (Some (PyStr "Hello")) PyNone;
                      Sample.a_chunk (Some PyNone) (PyStr "stop") ] None) |}
       (PyStr "hello") true None).1
  = [ {| inv_via := InPlace; inv_args := [PyStr "Hello"; PyNone];
         inv_kwargs := ∅ |};
      {| inv_via := InPlace; inv_args := [PyNone; PyStr "stop"];
         inv_kwargs := ∅ |} ].
Proof. vm_compute. reflexivity. Qed.

(** ** Non-streaming dispatch *)

(** C3.  In a non-streaming dispatch whose SDK call returns a response with
    a first choice, the callback is invoked exactly once, with that choice's
    message content bound to [response], and the invocation is handed to
    [execute_sync] with [MFF_WRITE] instead of being made in place. *)
Theorem non_streaming_callback_via_execute_sync gettext cb execute_sync
    self query opts choice others :
  sdk_call_returns self query false opts (ChatCompletion (choice :: others)) →
  callback_invocations
    (query_model gettext cb execute_sync self query false opts).1
  = [ {| inv_via := ViaExecuteSync MFF_WRITE;
         inv_args := [];
         inv_kwargs := {[ "response" := content (choice_message choice) ]} |} ].
Proof.
  intros [tr Hc].
  rewrite (query_model_returns _ _ _ _ _ _ _ _ _ Hc), try_except_invocations.
  simpl. rewrite callback_invocations_app.
  rewrite (proj1 (create_trace _ _ _ _ _ _ Hc)).
  unfold deliver, call_execute_sync. simpl. by destruct (execute_sync _ _).
Qed.

Lemma non_streaming_callback_via_execute_sync_witness :
  sdk_call_returns (Sample.answering "It adds two numbers.") (PyStr "hello")
    false None
    (ChatCompletion
       [ {| choice_message := {| content := PyStr "It adds two numbers." |} |} ]) ∧
  callback_invocations
    (query_model Sample.untranslated Sample.quiet_cb Sample.quiet_gate
       (Sample.answering "It adds two numbers.") (PyStr "hello") false None).1
  = [ {| inv_via := ViaExecuteSync MFF_WRITE;
         inv_args := [];
         inv_kwargs := {[ "response" := PyStr "It adds two numbers." ]} |} ].
Proof.
  assert (sdk_call_returns (Sample.answering "It adds two numbers.")
            (PyStr "hello") false None
            (ChatCompletion
               [ {| choice_message :=
                      {| content := PyStr "It adds two numbers." |} |} ])) as Hret.
  { eexists. reflexivity. }
  split; [exact Hret|].
  exact (non_streaming_callback_via_execute_sync Sample.untranslated
           Sample.quiet_cb Sample.quiet_gate _ _ _ _ _ Hret).
Defined.

(** ** Failures of the SDK call *)

Lemma catalogue_ok_untranslated : catalogue_ok Sample.untranslated.
Proof. intros template kw line Hf. by exists line. Qed.

Lemma too_long_is_context_length_message :
  context_length_message Sample.too_long.
Proof. apply context_length_pattern_spec. vm_compute. reflexivity. Qed.

(** With a usable catalogue, every handler of an [Exception] prints one
    line and returns. *)
Lemma query_model_except_prints gettext self e :
  catalogue_ok gettext →
  isinstance e Exception = true →
  ∃ line, query_model_except gettext self e = ([EvPrint line], inr tt).
Proof.
  intros Hok Hexc. unfold query_model_except. rewrite Hexc.
  destruct (isinstance e BadRequestError);
    [destruct (re_search context_length_pattern (exn_str e)); [by eexists|]|
     destruct (isinstance e OpenAIError)].
  - destruct (print_format_ok gettext _ _ _ Hok
                (format_general_exception (exn_str e))) as (line & _ & ->).
    by exists line.
  - destruct (print_format_ok gettext _ _ _ Hok
                (format_could_not_complete (model self) (exn_str e)))
      as (line & _ & ->).
    by exists line.
  - destruct (print_format_ok gettext _ _ _ Hok
                (format_general_exception (exn_str e))) as (line & _ & ->).
    by exists line.
Qed.

(** C4.  With a usable catalogue, when the SDK call of a dispatch raises an
    [Exception] (a context-length error, another API error, or anything
    else), [query_model] returns normally, the callback is not invoked, and
    the failure appears as one printed line. *)
Theorem sdk_failure_is_only_printed gettext cb execute_sync
    self query stream opts e :
  catalogue_ok gettext →
  sdk_call_raises self query stream opts e →
  isinstance e Exception = true →
  (query_model gettext cb execute_sync self query stream opts).2 = inr tt ∧
  callback_invocations
    (query_model gettext cb execute_sync self query stream opts).1 = [] ∧
  ∃ line,
    printed (query_model gettext cb execute_sync self query stream opts).1
    = [line].
Proof.
  intros Hok [tr Hc] Hexc.
  rewrite (query_model_raises _ _ _ _ _ _ _ _ _ Hc).
  destruct (query_model_except_prints gettext self e Hok Hexc) as [line ->].
  destruct (create_trace _ _ _ _ _ _ Hc) as [Hi Hp]. simpl.
  rewrite callback_invocations_app, printed_app, Hi, Hp.
  split; [done|]. split; [done|]. by exists line.
Qed.

Lemma sdk_failure_is_only_printed_witness :
  catalogue_ok Sample.untranslated ∧
  sdk_call_raises (Sample.failing (Sample.api_error "APIConnectionError" "Connection error."))
    (PyStr "hello") false None
    (Sample.api_error "APIConnectionError" "Connection error.") ∧
  isinstance (Sample.api_error "APIConnectionError" "Connection error.") Exception
  = true ∧
  (query_model Sample.untranslated Sample.quiet_cb Sample.quiet_gate
     (Sample.failing (Sample.api_error "APIConnectionError" "Connection error."))
     (PyStr "hello") false None).2 = inr tt ∧
  callback_invocations
    (query_model Sample.untranslated Sample.quiet_cb Sample.quiet_gate
       (Sample.failing (Sample.api_error "APIConnectionError" "Connection error."))
       (PyStr "hello") false None).1 = [] ∧
  ∃ line,
    printed
      (query_model Sample.untranslated Sample.quiet_cb Sample.quiet_gate
         (Sample.failing (Sample.api_error "APIConnectionError" "Connection error."))
         (PyStr "hello") false None).1
    = [line].
Proof.
  assert (sdk_call_raises
            (Sample.failing (Sample.api_error "APIConnectionError" "Connection error."))
            (PyStr "hello") false None
            (Sample.api_error "APIConnectionError" "Connection error.")) as Hr.
  { eexists. reflexivity. }
  split; [exact catalogue_ok_untranslated|].
  split; [exact Hr|].
  split; [reflexivity|].
  exact (sdk_failure_is_only_printed Sample.untranslated Sample.quiet_cb
           Sample.quiet_gate _ _ _ _ _ catalogue_ok_untranslated Hr eq_refl).
Defined.

(** ** The context-length advisory *)

(** C5, as the code has it.  When the SDK call of a dispatch raises a
    [BadRequestError] whose message contains "maximum context length is N
    tokens, however you requested M tokens" for numbers N and M,
    [query_model] prints the advisory that the function is too big to be
    analysed and nothing else, does not invoke the callback, and returns
    normally.  This holds for streaming and non-streaming dispatches. *)
Theorem context_length_error_prints_advisory gettext cb execute_sync
    self query stream opts e :
  sdk_call_raises self query stream opts e →
  isinstance e BadRequestError = true →
  context_length_message (exn_str e) →
  printed (query_model gettext cb execute_sync self query stream opts).1
  = [gettext "Unfortunately, this function is too big to be analyzed with the model's current API limits."] ∧
  callback_invocations
    (query_model gettext cb execute_sync self query stream opts).1 = [] ∧
  (query_model gettext cb execute_sync self query stream opts).2 = inr tt.
Proof.
  intros [tr Hc] Hbad Hmsg.
  apply context_length_pattern_spec in Hmsg.
  rewrite (query_model_raises _ _ _ _ _ _ _ _ _ Hc).
  unfold query_model_except. rewrite Hbad, Hmsg.
  destruct (create_trace _ _ _ _ _ _ Hc) as [Hi Hp]. simpl.
  by rewrite callback_invocations_app, printed_app, Hi, Hp.
Qed.

Lemma context_length_error_prints_advisory_witness :
  sdk_call_raises (Sample.failing (Sample.bad_request Sample.too_long))
    (PyStr "hello") false None (Sample.bad_request Sample.too_long) ∧
  isinstance (Sample.bad_request Sample.too_long) BadRequestError = true ∧
  context_length_message (exn_str (Sample.bad_request Sample.too_long)) ∧
  printed
    (query_model Sample.untranslated Sample.quiet_cb Sample.quiet_gate
       (Sample.failing (Sample.bad_request Sample.too_long))
       (PyStr "hello") false None).1
  = ["Unfortunately, this function is too big to be analyzed with the model's current API limits."] ∧
  callback_invocations
    (query_model Sample.untranslated Sample.quiet_cb Sample.quiet_gate
       (Sample.failing (Sample.bad_request Sample.too_long))
       (PyStr "hello") false None).1 = [] ∧
  (query_model Sample.untranslated Sample.quiet_cb Sample.quiet_gate
     (Sample.failing (Sample.bad_request Sample.too_long))
     (PyStr "hello") false None).2 = inr tt.
Proof.
  assert (sdk_call_raises (Sample.failing (Sample.bad_request Sample.too_long))
            (PyStr "hello") false None (Sample.bad_request Sample.too_long)) as Hr.
  { eexists. reflexivity. }
  split; [exact Hr|].
  split; [reflexivity|].
  split; [exact too_long_is_context_length_message|].
  exact (context_length_error_prints_advisory Sample.untranslated Sample.quiet_cb
           Sample.quiet_gate _ _ _ _ _ Hr eq_refl
           too_long_is_context_length_message).
Defined.

(** C5 as stated fails: an error of another class whose message matches the
    pattern is not recognised.  Here a rate-limit error carries the phrase,
    and the message reported is the raw error behind the model's name. *)
Lemma context_length_any_error_counterexample :
  ¬ (∀ cb execute_sync self query opts e,
       sdk_call_raises self query false opts e →
       context_length_message (exn_str e) →
       printed (query_model Sample.untranslated cb execute_sync
                  self query false opts).1
       = ["Unfortunately, this function is too big to be analyzed with the model's current API limits."]).
Proof.
  intros H.
  specialize (H Sample.quiet_cb Sample.quiet_gate
                (Sample.failing (Sample.api_error "RateLimitError" Sample.too_long))
                (PyStr "hello") None
                (Sample.api_error "RateLimitError" Sample.too_long)).
  assert (printed
            (query_model Sample.untranslated Sample.quiet_cb Sample.quiet_gate
               (Sample.failing (Sample.api_error "RateLimitError" Sample.too_long))
               (PyStr "hello") false None).1
          = ["gpt-x could not complete the request: This model's maximum context length is 4097 tokens, however you requested 5000 tokens."])
    as Hrun by (vm_compute; reflexivity).
  rewrite Hrun in H.
  discriminate H.
  - eexists. reflexivity.
  - exact too_long_is_context_length_message.
Qed.

(** ** The message for API errors *)

(** C2, as the code has it.  With a usable catalogue, when the SDK call of a
    dispatch raises an [OpenAIError] that is not a [BadRequestError],
    [query_model] prints the template "{model} could not complete the
    request: {error}" with the model name and the error text filled in, and
    returns.  Untranslated, the line is the model name, then " could not
    complete the request: ", then the error text. *)
Theorem api_error_prints_could_not_complete gettext cb execute_sync
    self query stream opts e :
  catalogue_ok gettext →
  sdk_call_raises self query stream opts e →
  isinstance e OpenAIError = true →
  isinstance e BadRequestError = false →
  ∃ line,
    str_format (gettext "{model} could not complete the request: {error}")
               {[ "model" := model self; "error" := exn_str e ]} = inr line ∧
    printed (query_model gettext cb execute_sync self query stream opts).1
    = [line] ∧
    (query_model gettext cb execute_sync self query stream opts).2 = inr tt ∧
    (gettext "{model} could not complete the request: {error}"
     = "{model} could not complete the request: {error}" →
     line = model self +:+ " could not complete the request: " +:+ exn_str e).
Proof.
  intros Hok [tr Hc] Hapi Hbad.
  rewrite (query_model_raises _ _ _ _ _ _ _ _ _ Hc).
  unfold query_model_except. rewrite Hbad, Hapi.
  destruct (print_format_ok gettext _ _ _ Hok
              (format_could_not_complete (model self) (exn_str e)))
    as (line & Hline & ->).
  destruct (create_trace _ _ _ _ _ _ Hc) as [_ Hp]. simpl.
  exists line. rewrite printed_app, Hp. repeat split; try done.
  intros Heq. rewrite Heq, format_could_not_complete in Hline. congruence.
Qed.

Lemma api_error_prints_could_not_complete_witness :
  catalogue_ok Sample.untranslated ∧
  sdk_call_raises (Sample.failing (Sample.api_error "RateLimitError" "Rate limit reached."))
    (PyStr "hello") false None
    (Sample.api_error "RateLimitError" "Rate limit reached.") ∧
  ∃ line,
    str_format (Sample.untranslated "{model} could not complete the request: {error}")
               {[ "model" := "gpt-x"; "error" := "Rate limit reached." ]} = inr line ∧
    printed
      (query_model Sample.untranslated Sample.quiet_cb Sample.quiet_gate
         (Sample.failing (Sample.api_error "RateLimitError" "Rate limit reached."))
         (PyStr "hello") false None).1
    = [line] ∧
    (query_model Sample.untranslated Sample.quiet_cb Sample.quiet_gate
       (Sample.failing (Sample.api_error "RateLimitError" "Rate limit reached."))
       (PyStr "hello") false None).2 = inr tt ∧
    (Sample.untranslated "{model} could not complete the request: {error}"
     = "{model} could not complete the request: {error}" →
     line = "gpt-x" +:+ " could not complete the request: " +:+ "Rate limit reached.").
Proof.
  assert (sdk_call_raises
            (Sample.failing (Sample.api_error "RateLimitError" "Rate limit reached."))
            (PyStr "hello") false None
            (Sample.api_error "RateLimitError" "Rate limit reached.")) as Hr.
  { eexists. reflexivity. }
  split; [exact catalogue_ok_untranslated|].
  split; [exact Hr|].
  exact (api_error_prints_could_not_complete Sample.untranslated Sample.quiet_cb
           Sample.quiet_gate _ _ _ _ _ catalogue_ok_untranslated Hr
           eq_refl eq_refl).
Defined.

(** C2 as stated fails: a [BadRequestError] is an API-level error, and when
    its message does not match the context-length pattern the line printed
    is the general one, without the model's name. *)
Lemma api_error_message_counterexample :
  ¬ (∀ cb execute_sync self query stream opts e,
       sdk_call_raises self query stream opts e →
       isinstance e OpenAIError = true →
       context_length_exceeded e = false →
       printed (query_model Sample.untranslated cb execute_sync
                  self query stream opts).1
       = [model self +:+ " could not complete the request: " +:+ exn_str e]).
Proof.
  intros H.
  specialize (H Sample.quiet_cb Sample.quiet_gate
                (Sample.failing (Sample.bad_request "Error code: 400 - unknown model"))
                (PyStr "hello") false None
                (Sample.bad_request "Error code: 400 - unknown model")).
  assert (printed
            (query_model Sample.untranslated Sample.quiet_cb Sample.quiet_gate
               (Sample.failing (Sample.bad_request "Error code: 400 - unknown model"))
               (PyStr "hello") false None).1
          = ["General exception encountered while running the query: Error code: 400 - unknown model"])
    as Hrun by (vm_compute; reflexivity).
  rewrite Hrun in H.
  discriminate H.
  - eexists. reflexivity.
  - reflexivity.
  - vm_compute. reflexivity.
Qed.

(** The other branch of the first handler: a [BadRequestError] whose
    message does not match the pattern is reported with the general
    template. *)
Lemma other_bad_request_prints_general gettext cb execute_sync
    self query stream opts e :
  catalogue_ok gettext →
  sdk_call_raises self query stream opts e →
  isinstance e BadRequestError = true →
  re_search context_length_pattern (exn_str e) = false →
  ∃ line,
    str_format (gettext "General exception encountered while running the query: {error}")
               {[ "error" := exn_str e ]} = inr line ∧
    printed (query_model gettext cb execute_sync self query stream opts).1
    = [line] ∧
    (query_model gettext cb execute_sync self query stream opts).2 = inr tt.
Proof.
  intros Hok [tr Hc] Hbad Hre.
  rewrite (query_model_raises _ _ _ _ _ _ _ _ _ Hc).
  unfold query_model_except. rewrite Hbad, Hre.
  destruct (print_format_ok gettext _ _ _ Hok
              (format_general_exception (exn_str e)))
    as (line & Hline & ->).
  destruct (create_trace _ _ _ _ _ _ Hc) as [_ Hp]. simpl.
  exists line. by rewrite printed_app, Hp.
Qed.

(** ** Normalisation of the query *)

(** C8.  A dispatch with the plain string [s] as query behaves as the
    dispatch with the one-element list holding the user message for [s]: the
    two calls have the same trace and outcome, in particular the same
    outbound request.  A query that is not a plain string is the messages
    argument of the request as it is. *)
Theorem string_prompt_is_one_user_message gettext cb execute_sync
    self stream opts s query :
  (∀ s', query ≠ PyStr s') →
  query_model gettext cb execute_sync self (PyStr s) stream opts
  = query_model gettext cb execute_sync self
      (PyList [PyDict {[ "role" := PyStr "user"; "content" := PyStr s ]}])
      stream opts ∧
  outbound_requests
    (query_model gettext cb execute_sync self (PyStr s) stream opts).1
  = match clashing_keyword (default ∅ opts) with
    | Some _ => []
    | None =>
        [ {| req_model := model self;
             req_messages :=
               PyList [PyDict {[ "role" := PyStr "user"; "content" := PyStr s ]}];
             req_stream := stream;
             req_extra := default ∅ opts |} ]
    end ∧
  outbound_requests
    (query_model gettext cb execute_sync self query stream opts).1
  = match clashing_keyword (default ∅ opts) with
    | Some _ => []
    | None =>
        [ {| req_model := model self; req_messages := query;
             req_stream := stream; req_extra := default ∅ opts |} ]
    end.
Proof.
  intros Hq. split; [reflexivity|]. split.
  - apply query_model_requests.
  - rewrite query_model_requests.
    replace (conversation_of query) with query; [done|].
    destruct query; try done. by destruct (Hq s0).
Qed.

Lemma string_prompt_is_one_user_message_witness :
  (∀ s', PyList [Sample.user_message "hello"; Sample.user_message "again"]
         ≠ PyStr s') ∧
  query_model Sample.untranslated Sample.quiet_cb Sample.quiet_gate
    (Sample.answering "Hi.") (PyStr "hello") false None
  = query_model Sample.untranslated Sample.quiet_cb Sample.quiet_gate
      (Sample.answering "Hi.")
      (PyList [PyDict {[ "role" := PyStr "user"; "content" := PyStr "hello" ]}])
      false None ∧
  outbound_requests
    (query_model Sample.untranslated Sample.quiet_cb Sample.quiet_gate
       (Sample.answering "Hi.") (PyStr "hello") false None).1
  = [ {| req_model := "gpt-x";
         req_messages :=
           PyList [PyDict {[ "role" := PyStr "user"; "content" := PyStr "hello" ]}];
         req_stream := false;
         req_extra := ∅ |} ] ∧
  outbound_requests
    (query_model Sample.untranslated Sample.quiet_cb Sample.quiet_gate
       (Sample.answering "Hi.")
       (PyList [Sample.user_message "hello"; Sample.user_message "again"])
       false None).1
  = [ {| req_model := "gpt-x";
         req_messages :=
           PyList [Sample.user_message "hello"; Sample.user_message "again"];
         req_stream := false;
         req_extra := ∅ |} ].
Proof.
  assert (∀ s', PyList [Sample.user_message "hello"; Sample.user_message "again"]
                ≠ PyStr s') as Hq by (intros s'; discriminate).
  split; [exact Hq|].
  exact (string_prompt_is_one_user_message Sample.untranslated Sample.quiet_cb
           Sample.quiet_gate (Sample.answering "Hi.") false None "hello" _ Hq).
Defined.

(** C9.  The test [type(query) is str] is on the exact type: an instance of
    a proper subclass of [str] is not wrapped, and it is the messages
    argument of the request as it is. *)
Theorem str_subclass_is_not_wrapped gettext cb execute_sync
    self cls s stream opts :
  conversation_of (PyStrSub cls s) = PyStrSub cls s ∧
  outbound_requests
    (query_model gettext cb execute_sync self (PyStrSub cls s) stream opts).1
  = match clashing_keyword (default ∅ opts) with
    | Some _ => []
    | None =>
        [ {| req_model := model self; req_messages := PyStrSub cls s;
             req_stream := stream; req_extra := default ∅ opts |} ]
    end.
Proof. split; [reflexivity|]. apply query_model_requests. Qed.

(** ** Discovery *)

Lemma model_ids_listed entries :
  Forall listed_entry entries →
  ∃ ids, model_ids entries = inr ids ∧ ids_of_model_entries entries ids.
Proof.
  unfold ids_of_model_entries.
  induction 1 as [|entry entries [[d ->] Hid] _ (ids & IH & Hids)]; simpl.
  - exists []. split; [done | constructor].
  - unfold is_model_entry in *. simpl in *.
    destruct (d !! "object") as [object|] eqn:Hobj; simpl.
    + destruct (py_eq_str object "model") eqn:Hm.
      * destruct (Hid eq_refl) as [id Hd]. rewrite Hd. cbn. rewrite IH. cbn.
        exists (id :: ids). split; [done|]. by constructor.
      * rewrite IH. by exists ids.
    + rewrite IH. by exists ids.
Qed.

(** C6.  When the server is configured, the GET succeeds without an error
    status, and the body is an object whose [data] is an array of entries of
    the documented shape, [supported_models] returns the [id] fields of the
    entries whose [object] equals ["model"], in order, and nothing else. *)
Theorem discovery_lists_model_ids get_server requests_get link r body entries :
  get_server = Some link →
  link ≠ EmptyString →
  requests_get (link +:+ "/models") = GetReturns r →
  (status_code r < 400 ∨ 600 ≤ status_code r) →
  json r = inr (PyDict body) →
  body !! "data" = Some (PyList entries) →
  Forall listed_entry entries →
  ∃ ids, supported_models get_server requests_get = inr ids ∧
         ids_of_model_entries entries ids.
Proof.
  intros -> Hlink Hget Hstatus Hjson Hdata Hentries.
  destruct (model_ids_listed entries Hentries) as (ids & Hids & Hspec).
  exists ids. split; [|done].
  unfold supported_models, supported_models_try, unset. simpl.
  destruct (String.eqb_spec link EmptyString) as [|_]; [done|].
  rewrite Hget. unfold raise_for_status.
  replace ((400 <=? status_code r) && (status_code r <? 500)) with false by lia.
  replace ((500 <=? status_code r) && (status_code r <? 600)) with false by lia.
  cbn. rewrite Hjson. cbn. rewrite Hdata. cbn. by rewrite Hids.
Qed.

Lemma listing_is_listed : Forall listed_entry Sample.listing.
Proof.
  repeat constructor; try (by eexists); intros _; by eexists.
Qed.

Lemma discovery_lists_model_ids_witness :
  Forall listed_entry Sample.listing ∧
  ∃ ids,
    supported_models (Some "http://localhost:4000")
      (Sample.serving 200 (inr (PyDict Sample.listing_body))) = inr ids ∧
    ids_of_model_entries Sample.listing ids.
Proof.
  split; [exact listing_is_listed|].
  apply (discovery_lists_model_ids (Some "http://localhost:4000")
           (Sample.serving 200 (inr (PyDict Sample.listing_body)))
           "http://localhost:4000"
           {| status_code := 200; json := inr (PyDict Sample.listing_body) |}
           Sample.listing_body Sample.listing).
  - reflexivity.
  - discriminate.
  - reflexivity.
  - left. simpl. lia.
  - reflexivity.
  - reflexivity.
  - exact listing_is_listed.
Defined.

(** The listing of the specification: one model entry and one entry of
    another kind. *)
Example discovery_of_sample_listing :
  supported_models (Some "http://localhost:4000")
    (Sample.serving 200 (inr (PyDict Sample.listing_body)))
  = inr [PyStr "gpt-x"].
Proof. vm_compute. reflexivity. Qed.

(** [is_configured_properly] against [supported_models]. *)
Lemma is_configured_properly_cases get_server requests_get :
  match supported_models get_server requests_get with
  | inl e => is_configured_properly get_server requests_get = inl e
  | inr [] => is_configured_properly get_server requests_get = inr false
  | inr (_ :: _) => is_configured_properly get_server requests_get = inr true
  end.
Proof.
  unfold is_configured_properly.
  by destruct (supported_models get_server requests_get) as [e|[|m ms]].
Qed.

(** C7.  When no server is configured, when the GET raises a
    [RequestException], or when the response has a client or server error
    status, [supported_models] returns the empty list and raises nothing.
    [is_configured_properly] returns false exactly when [supported_models]
    returns the empty list, and true exactly when it returns at least one
    model. *)
Theorem discovery_failure_is_empty get_server requests_get :
  ((unset get_server = true ∨
    (∃ e, requests_get (default EmptyString get_server +:+ "/models") = GetRaises e ∧
          isinstance e RequestException = true) ∨
    (∃ r, requests_get (default EmptyString get_server +:+ "/models") = GetReturns r ∧
          400 ≤ status_code r < 600)) →
   supported_models get_server requests_get = inr [] ∧
   is_configured_properly get_server requests_get = inr false) ∧
  (is_configured_properly get_server requests_get = inr false ↔
   supported_models get_server requests_get = inr []) ∧
  (is_configured_properly get_server requests_get = inr true ↔
   ∃ m ms, supported_models get_server requests_get = inr (m :: ms)).
Proof.
  pose proof (is_configured_properly_cases get_server requests_get) as Hcases.
  assert (supported_models get_server requests_get = inr [] →
          is_configured_properly get_server requests_get = inr false) as Hempty.
  { intros Hs. by rewrite Hs in Hcases. }
  split; [|split].
  - intros Hfail.
    assert (supported_models get_server requests_get = inr []) as Hs; [|by auto].
    unfold supported_models, supported_models_try.
    destruct (unset get_server) eqn:Hu; [done|].
    destruct Hfail as [?|[(e & -> & He)|(r & -> & Hr)]]; [done| |].
    + by rewrite He.
    + unfold raise_for_status.
      destruct (decide (status_code r < 500)).
      * replace ((400 <=? status_code r) && (status_code r <? 500)) with true
          by lia.
        done.
      * replace ((400 <=? status_code r) && (status_code r <? 500)) with false
          by lia.
        replace ((500 <=? status_code r) && (status_code r <? 600)) with true
          by lia.
        done.
  - split; [|done].
    destruct (supported_models get_server requests_get) as [e|[|m ms]];
      by rewrite Hcases.
  - split.
    + destruct (supported_models get_server requests_get) as [e|[|m ms]];
        rewrite Hcases; try done. intros _. by exists m, ms.
    + intros (m & ms & Hs). by rewrite Hs in Hcases.
Qed.

Lemma discovery_failure_is_empty_witness :
  (supported_models None Sample.unreachable = inr [] ∧
   is_configured_properly None Sample.unreachable = inr false) ∧
  (supported_models (Some "http://localhost:4000") Sample.unreachable = inr [] ∧
   is_configured_properly (Some "http://localhost:4000") Sample.unreachable
   = inr false) ∧
  (supported_models (Some "http://localhost:4000")
     (Sample.serving 503 (inr (PyDict Sample.listing_body))) = inr [] ∧
   is_configured_properly (Some "http://localhost:4000")
     (Sample.serving 503 (inr (PyDict Sample.listing_body))) = inr false).
Proof.
  split; [|split].
  - apply (proj1 (discovery_failure_is_empty None Sample.unreachable)).
    left. reflexivity.
  - apply (proj1 (discovery_failure_is_empty (Some "http://localhost:4000")
                    Sample.unreachable)).
    right. left. eexists. split; reflexivity.
  - apply (proj1 (discovery_failure_is_empty (Some "http://localhost:4000")
                    (Sample.serving 503 (inr (PyDict Sample.listing_body))))).
    right. right. eexists. split; [reflexivity|]. simpl. lia.
Defined.

(** ** Runs that leave the streaming loop early *)

(** The stream fails after its first chunk: the callback has been invoked
    for that chunk, and the failure is printed. *)
Example stream_fails_after_one_chunk :
  query_model Sample.untranslated Sample.quiet_cb Sample.quiet_gate
    {| model := "gpt-x";
       client := λ _, SdkReturns
         (Stream [Sample.a_chunk (Some (PyStr "Hel")) PyNone]
                 (Some (Sample.api_error "APIConnectionError" "Connection error."))) |}
    (PyList [Sample.user_message "hello"]) true None
  = ([ EvRequest {| req_model := "gpt-x";
                    req_messages := PyList [Sample.user_message "hello"];
                    req_stream := true; req_extra := ∅ |};
       EvCallback [PyStr "Hel"; PyNone];
       EvPrint "gpt-x could not complete the request: Connection error." ],
     inr tt).
Proof. vm_compute. reflexivity. Qed.

(** A chunk without choices ends the loop with an [IndexError]; the chunks
    after it are not delivered. *)
Example chunk_without_choices_ends_the_loop :
  query_model Sample.untranslated Sample.quiet_cb Sample.quiet_gate
    {| model := "gpt-x";
       client := λ _, SdkReturns
         (Stream [ {| chunk_choices := [] |};
                   Sample.a_chunk (Some (PyStr "Hel")) PyNone ] None) |}
    (PyList [Sample.user_message "hello"]) true None
  = ([ EvRequest {| req_model := "gpt-x";
                    req_messages := PyList [Sample.user_message "hello"];
                    req_stream := true; req_extra := ∅ |};
       EvPrint "General exception encountered while running the query: list index out of range" ],
     inr tt).
Proof. vm_compute. reflexivity. Qed.

(** A callback that raises on its first invocation ends the loop as well. *)
Example raising_callback_ends_the_loop :
  callback_invocations
    (query_model Sample.untranslated
       (λ n _, if decide (n = 0%nat) then Some (ValueError "no") else None)
       Sample.quiet_gate Sample.streaming
       (PyList [Sample.user_message "hello"]) true None).1
  = [ {| inv_via := InPlace; inv_args := [PyStr "Hel"; PyNone];
         inv_kwargs := ∅ |} ].
Proof. vm_compute. reflexivity. Qed.

(** A translation with a field the call does not supply makes the handler
    raise [KeyError], which leaves [query_model]. *)
Example broken_translation_raises :
  (query_model (λ _, "{modell} tidak dapat menyelesaikan: {error}")
     Sample.quiet_cb Sample.quiet_gate
     (Sample.failing (Sample.api_error "RateLimitError" "Rate limit reached."))
     (PyStr "hello") false None).2
  = inl (KeyError "modell").
Proof. vm_compute. reflexivity. Qed.

(** * Further properties of the dispatch *)

(** ** Traces in general *)

Section Traces.
Variable gettext : string → string.
Variable cb : nat → list pyval → option exn.
Variable execute_sync : cb_partial → Z → option exn.

Lemma for_chunks_printed n chunks failure :
  printed (for_chunks cb n chunks failure).1 = [].
Proof.
  revert n. induction chunks as [|c chunks IH]; intros n; simpl.
  - by destruct failure.
  - destruct (chunk_choices c) as [|ch others]; [done|]. simpl.
    unfold call_cb. specialize (IH (S n)).
    destruct (cb n _); [done|]. cbn.
    by destruct (for_chunks cb (S n) chunks failure).
Qed.

Lemma deliver_printed stream response :
  printed (deliver cb execute_sync stream response).1 = [].
Proof.
  unfold deliver. destruct stream; simpl.
  - destruct response; [done|]. apply for_chunks_printed.
  - destruct response as [[|c cs]|]; try done.
    simpl. unfold call_execute_sync. by destruct (execute_sync _ _).
Qed.

Lemma query_model_except_printed_le self e :
  (length (printed (query_model_except gettext self e).1) ≤ 1)%nat.
Proof.
  unfold query_model_except.
  repeat case_match; simpl; try lia;
    match goal with
    | |- context [print_format ?t ?kw] =>
        destruct (print_format_cases t kw) as [(l & _ & ->)|(e' & _ & ->)];
          simpl; lia
    end.
Qed.

(** The callback invocations of a dispatch are those of the delivery. *)
Lemma query_model_invocations self query stream opts :
  callback_invocations
    (query_model gettext cb execute_sync self query stream opts).1
  = match (create self (conversation_of query) stream (default ∅ opts)).2 with
    | inr response =>
        callback_invocations (deliver cb execute_sync stream response).1
    | inl _ => []
    end.
Proof.
  destruct (create self (conversation_of query) stream (default ∅ opts))
    as [tr [e|response]] eqn:Hc; simpl.
  - rewrite (query_model_raises _ _ _ _ _ _ _ _ _ Hc). simpl.
    rewrite callback_invocations_app.
    rewrite (proj1 (create_trace _ _ _ _ _ _ Hc)).
    apply query_model_except_trace.
  - rewrite (query_model_returns _ _ _ _ _ _ _ _ _ Hc), try_except_invocations.
    simpl. rewrite callback_invocations_app.
    by rewrite (proj1 (create_trace _ _ _ _ _ _ Hc)).
Qed.

(** The loop in general: the callbacks made are those of the first [k]
    chunks, for some [k]. *)
Lemma for_chunks_prefix n chunks failure :
  ∃ k firsts,
    Forall2 (λ c ch, head (chunk_choices c) = Some ch) (take k chunks) firsts ∧
    callback_invocations (for_chunks cb n chunks failure).1
    = (λ ch, {| inv_via := InPlace;
                inv_args := [delta_text (delta ch); finish_reason ch];
                inv_kwargs := ∅ |}) <$> firsts.
Proof.
  revert n. induction chunks as [|c chunks IH]; intros n.
  - exists 0%nat, []. split; [constructor|]. simpl. by destruct failure.
  - simpl. destruct (chunk_choices c) as [|ch others] eqn:Hch.
    { exists 0%nat, []. split; [constructor | done]. }
    simpl. unfold call_cb. destruct (cb n _) as [e|].
    { exists 1%nat, [ch]. split; [|done].
      simpl. rewrite take_0. constructor; [by rewrite Hch | constructor]. }
    destruct (IH (S n)) as (k & firsts & Hfirsts & Hinv).
    exists (S k), (ch :: firsts). split.
    + simpl. constructor; [by rewrite Hch | done].
    + cbn. destruct (for_chunks cb (S n) chunks failure) as [tr r].
      simpl in *. unfold callback_invocations in *. simpl. by f_equal.
Qed.

End Traces.

Section Outcome.
Variable gettext : string → string.
Variable cb : nat → list pyval → option exn.
Variable execute_sync : cb_partial → Z → option exn.

(** Nothing is printed inside the [try] body. *)
Lemma query_model_try_printed self query stream opts :
  printed (query_model_try cb execute_sync self query stream opts).1 = [].
Proof.
  unfold query_model_try, mbind, M_bind.
  destruct (create self (conversation_of query) stream opts)
    as [tr [e|response]] eqn:Hc;
    destruct (create_trace _ _ _ _ _ _ Hc) as [_ Hp]; [done|].
  pose proof (deliver_printed cb execute_sync stream response) as Hd.
  destruct (deliver cb execute_sync stream response) as [tr' r]. simpl in *.
  by rewrite printed_app, Hp, Hd.
Qed.

(** What is printed, and how the call ends, by the outcome of the body. *)
Lemma query_model_by_outcome self query stream opts :
  match (query_model_try cb execute_sync self query stream (default ∅ opts)).2 with
  | inl e =>
      printed (query_model gettext cb execute_sync self query stream opts).1
      = printed (query_model_except gettext self e).1 ∧
      (query_model gettext cb execute_sync self query stream opts).2
      = (query_model_except gettext self e).2
  | inr _ =>
      printed (query_model gettext cb execute_sync self query stream opts).1 = [] ∧
      (query_model gettext cb execute_sync self query stream opts).2 = inr tt
  end.
Proof.
  unfold query_model, try_except.
  pose proof (query_model_try_printed self query stream (default ∅ opts)) as Hp.
  destruct (query_model_try cb execute_sync self query stream (default ∅ opts))
    as [tr [e|[]]]; simpl in *; [|done].
  destruct (query_model_except gettext self e) as [tr' r]. simpl.
  by rewrite printed_app, Hp.
Qed.

End Outcome.

(** ** Streaming in general *)

(** X1.  In every streaming dispatch whose SDK call returned a stream,
    whatever the chunks hold and whatever the callback does, the callback
    invocations are those of the first [k] chunks for some [k], one per
    chunk and in order: no chunk is delivered twice, out of order, or after
    a chunk that was not delivered. *)
Theorem streaming_callbacks_are_a_prefix gettext cb execute_sync
    self query opts chunks failure :
  sdk_call_returns self query true opts (Stream chunks failure) →
  ∃ k firsts,
    Forall2 (λ c ch, head (chunk_choices c) = Some ch) (take k chunks) firsts ∧
    callback_invocations
      (query_model gettext cb execute_sync self query true opts).1
    = (λ ch, {| inv_via := InPlace;
                inv_args := [delta_text (delta ch); finish_reason ch];
                inv_kwargs := ∅ |}) <$> firsts.
Proof.
  intros [tr Hc]. rewrite query_model_invocations, Hc. simpl.
  apply for_chunks_prefix.
Qed.

Lemma streaming_callbacks_are_a_prefix_witness :
  sdk_call_returns Edge.breaking (PyStr "hello") true None
    (Stream [ Sample.a_chunk (Some (PyStr "Hel")) PyNone;
              Sample.a_chunk (Some (PyStr "lo")) PyNone ]
            (Some (Sample.api_error "APIConnectionError" "Connection error."))) ∧
  ∃ k firsts,
    Forall2 (λ c ch, head (chunk_choices c) = Some ch)
      (take k [ Sample.a_chunk (Some (PyStr "Hel")) PyNone;
                Sample.a_chunk (Some (PyStr "lo")) PyNone ]) firsts ∧
    callback_invocations
      (query_model Sample.untranslated Sample.quiet_cb Sample.quiet_gate
         Edge.breaking (PyStr "hello") true None).1
    = (λ ch, {| inv_via := InPlace;
                inv_args := [delta_text (delta ch); finish_reason ch];
                inv_kwargs := ∅ |}) <$> firsts.
Proof.
  assert (sdk_call_returns Edge.breaking (PyStr "hello") true None
            (Stream [ Sample.a_chunk (Some (PyStr "Hel")) PyNone;
                      Sample.a_chunk (Some (PyStr "lo")) PyNone ]
                    (Some (Sample.api_error "APIConnectionError"
                             "Connection error.")))) as Hret.
  { eexists. reflexivity. }
  split; [exact Hret|].
  exact (streaming_callbacks_are_a_prefix Sample.untranslated Sample.quiet_cb
           Sample.quiet_gate _ _ _ _ _ Hret).
Defined.

(** ** How the callback is reached *)

(** X2.  In every dispatch the stream flag alone decides how the callback
    is reached.  A streaming dispatch only calls it in place, with two
    positional arguments; a non-streaming dispatch only hands it to
    [execute_sync] with [MFF_WRITE] and the single keyword [response], and
    does so at most once. *)
Theorem callback_delivery_follows_stream_flag gettext cb execute_sync
    self query (stream : bool) opts :
  Forall (λ inv : invocation,
            if stream then
              inv_via inv = InPlace ∧ length (inv_args inv) = 2%nat ∧
              inv_kwargs inv = ∅
            else
              inv_via inv = ViaExecuteSync MFF_WRITE ∧ inv_args inv = [] ∧
              dom (inv_kwargs inv) = ({[ "response" ]} : gset string))
         (callback_invocations
            (query_model gettext cb execute_sync self query stream opts).1) ∧
  (stream = false →
   (length (callback_invocations
              (query_model gettext cb execute_sync self query stream opts).1)
    ≤ 1)%nat).
Proof.
  rewrite query_model_invocations.
  destruct (create self (conversation_of query) stream (default ∅ opts)).2
    as [e|response]; [by split; [constructor | simpl; lia]|].
  destruct stream.
  - split; [|done]. destruct response as [choices|chunks failure]; [constructor|].
    destruct (for_chunks_prefix cb 0 chunks failure) as (k & firsts & _ & Hinv).
    change (deliver cb execute_sync true (Stream chunks failure))
      with (for_chunks cb 0 chunks failure).
    rewrite Hinv. apply Forall_fmap, Forall_forall. by intros ch _.
  - unfold deliver, call_execute_sync. simpl.
    destruct response as [[|c cs]|chunks failure]; simpl;
      try (by split; [constructor | intros; simpl; lia]).
    destruct (execute_sync _ _); simpl;
      (split; [|intros; simpl; lia]);
      (constructor; [|constructor]); simpl;
      (split; [done|]; split; [done|]); apply dom_singleton_L.
Qed.

(** ** One request, one line *)

(** X3.  A dispatch issues at most one SDK request and prints at most one
    line, whatever happens: nothing is retried, and a failure is reported
    once. *)
Theorem at_most_one_request_and_one_line gettext cb execute_sync
    self query stream opts :
  (length (outbound_requests
             (query_model gettext cb execute_sync self query stream opts).1)
   ≤ 1)%nat ∧
  (length (printed
             (query_model gettext cb execute_sync self query stream opts).1)
   ≤ 1)%nat.
Proof.
  split.
  - rewrite query_model_requests.
    destruct (clashing_keyword (default ∅ opts)); simpl; lia.
  - pose proof (query_model_by_outcome gettext cb execute_sync
                  self query stream opts) as Hout.
    destruct (query_model_try cb execute_sync self query stream (default ∅ opts)).2
      as [e|[]].
    + destruct Hout as [-> _]. apply query_model_except_printed_le.
    + destruct Hout as [-> _]. simpl. lia.
Qed.

(** ** Failures outside the claims *)

Lemma create_returns_trace self conversation stream opts tr response :
  create self conversation stream opts = (tr, inr response) →
  tr = [EvRequest {| req_model := model self; req_messages := conversation;
                     req_stream := stream; req_extra := opts |}].
Proof.
  destruct (create_cases self conversation stream opts)
    as [(k & _ & ->)|(_ & r & -> & ->)]; [done|]. by intros [= <- _].
Qed.

Lemma clashing_keyword_some (opts : gmap string pyval) :
  is_Some (opts !! "model") ∨ is_Some (opts !! "messages") ∨
  is_Some (opts !! "stream") →
  is_Some (clashing_keyword opts).
Proof.
  intros H. unfold clashing_keyword.
  repeat case_bool_decide; eauto.
  by destruct H as [?|[?|?]].
Qed.

(** X4.  When the additional options repeat one of the keywords [model],
    [messages] or [stream], the call expression fails before the SDK is
    reached: with a usable catalogue no request is issued, the callback is
    not invoked, one line is printed and [query_model] returns. *)
Theorem clashing_option_sends_nothing gettext cb execute_sync
    self query stream (opts : gmap string pyval) :
  catalogue_ok gettext →
  is_Some (opts !! "model") ∨ is_Some (opts !! "messages") ∨
  is_Some (opts !! "stream") →
  outbound_requests
    (query_model gettext cb execute_sync self query stream (Some opts)).1 = [] ∧
  callback_invocations
    (query_model gettext cb execute_sync self query stream (Some opts)).1 = [] ∧
  (∃ line,
     printed (query_model gettext cb execute_sync self query stream (Some opts)).1
     = [line]) ∧
  (query_model gettext cb execute_sync self query stream (Some opts)).2 = inr tt.
Proof.
  intros Hok Hclash.
  destruct (clashing_keyword_some opts Hclash) as [k Hk].
  split; [by rewrite query_model_requests; simpl; rewrite Hk|].
  destruct (create_cases self (conversation_of query) stream opts)
    as [(k' & _ & Hc)|(Hnone & _)]; [|congruence].
  rewrite (query_model_raises gettext cb execute_sync self query stream
             (Some opts) _ _ Hc).
  match type of Hc with
  | _ = (_, inl ?e) =>
      destruct (query_model_except_prints gettext self e Hok eq_refl)
        as [line ->]
  end.
  simpl. split; [done|]. split; [by exists line | done].
Qed.

Lemma clashing_option_sends_nothing_witness :
  catalogue_ok Sample.untranslated ∧
  outbound_requests
    (query_model Sample.untranslated Sample.quiet_cb Sample.quiet_gate
       (Sample.answering "Hi.") (PyStr "hello") false
       (Some {[ "stream" := PyBool true ]})).1 = [] ∧
  callback_invocations
    (query_model Sample.untranslated Sample.quiet_cb Sample.quiet_gate
       (Sample.answering "Hi.") (PyStr "hello") false
       (Some {[ "stream" := PyBool true ]})).1 = [] ∧
  (∃ line,
     printed
       (query_model Sample.untranslated Sample.quiet_cb Sample.quiet_gate
          (Sample.answering "Hi.") (PyStr "hello") false
          (Some {[ "stream" := PyBool true ]})).1
     = [line]) ∧
  (query_model Sample.untranslated Sample.quiet_cb Sample.quiet_gate
     (Sample.answering "Hi.") (PyStr "hello") false
     (Some {[ "stream" := PyBool true ]})).2 = inr tt.
Proof.
  split; [exact catalogue_ok_untranslated|].
  apply (clashing_option_sends_nothing Sample.untranslated Sample.quiet_cb
           Sample.quiet_gate (Sample.answering "Hi.") (PyStr "hello") false
           {[ "stream" := PyBool true ]} catalogue_ok_untranslated).
  right. right. by eexists.
Defined.

(** X5.  An exception of the SDK call that is neither a [BadRequestError],
    nor an [OpenAIError], nor an [Exception] is caught by no clause: it
    reaches the caller of [query_model], nothing is printed and the
    callback is not invoked. *)
Theorem uncaught_exception_reaches_the_caller gettext cb execute_sync
    self query stream opts e :
  sdk_call_raises self query stream opts e →
  isinstance e BadRequestError = false →
  isinstance e OpenAIError = false →
  isinstance e Exception = false →
  (query_model gettext cb execute_sync self query stream opts).2 = inl e ∧
  printed (query_model gettext cb execute_sync self query stream opts).1 = [] ∧
  callback_invocations
    (query_model gettext cb execute_sync self query stream opts).1 = [].
Proof.
  intros [tr Hc] Hbad Hapi Hexc.
  rewrite (query_model_raises _ _ _ _ _ _ _ _ _ Hc).
  unfold query_model_except. rewrite Hbad, Hapi, Hexc.
  destruct (create_trace _ _ _ _ _ _ Hc) as [Hi Hp]. simpl.
  by rewrite app_nil_r, Hi, Hp.
Qed.

Lemma uncaught_exception_reaches_the_caller_witness :
  sdk_call_raises (Sample.failing Edge.keyboard_interrupt) (PyStr "hello")
    false None Edge.keyboard_interrupt ∧
  (query_model Sample.untranslated Sample.quiet_cb Sample.quiet_gate
     (Sample.failing Edge.keyboard_interrupt) (PyStr "hello") false None).2
  = inl Edge.keyboard_interrupt ∧
  printed
    (query_model Sample.untranslated Sample.quiet_cb Sample.quiet_gate
       (Sample.failing Edge.keyboard_interrupt) (PyStr "hello") false None).1
  = [] ∧
  callback_invocations
    (query_model Sample.untranslated Sample.quiet_cb Sample.quiet_gate
       (Sample.failing Edge.keyboard_interrupt) (PyStr "hello") false None).1
  = [].
Proof.
  assert (sdk_call_raises (Sample.failing Edge.keyboard_interrupt)
            (PyStr "hello") false None Edge.keyboard_interrupt) as Hr.
  { eexists. reflexivity. }
  split; [exact Hr|].
  exact (uncaught_exception_reaches_the_caller Sample.untranslated
           Sample.quiet_cb Sample.quiet_gate _ _ _ _ _ Hr
           eq_refl eq_refl eq_refl).
Defined.

(** X6.  With a usable catalogue, when the SDK call raises an [Exception]
    that is not an [OpenAIError], [query_model] prints the template
    "General exception encountered while running the query: {error}" with
    the error text filled in, does not invoke the callback, and returns.
    Untranslated, the line is that prefix followed by the error text, which
    is not scanned for braces. *)
Theorem unexpected_failure_prints_general_exception gettext cb execute_sync
    self query stream opts e :
  catalogue_ok gettext →
  sdk_call_raises self query stream opts e →
  isinstance e BadRequestError = false →
  isinstance e OpenAIError = false →
  isinstance e Exception = true →
  ∃ line,
    str_format
      (gettext "General exception encountered while running the query: {error}")
      {[ "error" := exn_str e ]} = inr line ∧
    printed (query_model gettext cb execute_sync self query stream opts).1
    = [line] ∧
    callback_invocations
      (query_model gettext cb execute_sync self query stream opts).1 = [] ∧
    (query_model gettext cb execute_sync self query stream opts).2 = inr tt ∧
    (gettext "General exception encountered while running the query: {error}"
     = "General exception encountered while running the query: {error}" →
     line = "General exception encountered while running the query: "
            +:+ exn_str e).
Proof.
  intros Hok [tr Hc] Hbad Hapi Hexc.
  rewrite (query_model_raises _ _ _ _ _ _ _ _ _ Hc).
  unfold query_model_except. rewrite Hbad, Hapi, Hexc.
  destruct (print_format_ok gettext _ _ _ Hok
              (format_general_exception (exn_str e)))
    as (line & Hline & ->).
  destruct (create_trace _ _ _ _ _ _ Hc) as [Hi Hp]. simpl.
  exists line. rewrite printed_app, callback_invocations_app, Hi, Hp.
  repeat split; try done.
  intros Heq. rewrite Heq, format_general_exception in Hline. congruence.
Qed.

Lemma unexpected_failure_prints_general_exception_witness :
  catalogue_ok Sample.untranslated ∧
  sdk_call_raises (Sample.failing (Edge.timeout_error "timed out {0}"))
    (PyStr "hello") false None (Edge.timeout_error "timed out {0}") ∧
  ∃ line,
    str_format
      (Sample.untranslated
         "General exception encountered while running the query: {error}")
      {[ "error" := "timed out {0}" ]} = inr line ∧
    printed
      (query_model Sample.untranslated Sample.quiet_cb Sample.quiet_gate
         (Sample.failing (Edge.timeout_error "timed out {0}"))
         (PyStr "hello") false None).1
    = [line] ∧
    callback_invocations
      (query_model Sample.untranslated Sample.quiet_cb Sample.quiet_gate
         (Sample.failing (Edge.timeout_error "timed out {0}"))
         (PyStr "hello") false None).1 = [] ∧
    (query_model Sample.untranslated Sample.quiet_cb Sample.quiet_gate
       (Sample.failing (Edge.timeout_error "timed out {0}"))
       (PyStr "hello") false None).2 = inr tt ∧
    (Sample.untranslated
       "General exception encountered while running the query: {error}"
     = "General exception encountered while running the query: {error}" →
     line = "General exception encountered while running the query: "
            +:+ "timed out {0}").
Proof.
  assert (sdk_call_raises (Sample.failing (Edge.timeout_error "timed out {0}"))
            (PyStr "hello") false None (Edge.timeout_error "timed out {0}"))
    as Hr.
  { eexists. reflexivity. }
  split; [exact catalogue_ok_untranslated|].
  split; [exact Hr|].
  exact (unexpected_failure_prints_general_exception Sample.untranslated
           Sample.quiet_cb Sample.quiet_gate _ _ _ _ _
           catalogue_ok_untranslated Hr eq_refl eq_refl eq_refl).
Defined.

(** X7.  A non-streaming response without choices has no first choice: with
    a usable catalogue the [IndexError] is reported with the general
    template, the callback is not handed to [execute_sync], and
    [query_model] returns. *)
Theorem response_without_choices_is_reported gettext cb execute_sync
    self query opts :
  catalogue_ok gettext →
  sdk_call_returns self query false opts (ChatCompletion []) →
  callback_invocations
    (query_model gettext cb execute_sync self query false opts).1 = [] ∧
  (query_model gettext cb execute_sync self query false opts).2 = inr tt ∧
  ∃ line,
    str_format
      (gettext "General exception encountered while running the query: {error}")
      {[ "error" := "list index out of range" ]} = inr line ∧
    printed (query_model gettext cb execute_sync self query false opts).1
    = [line].
Proof.
  intros Hok [tr Hc].
  split.
  { by rewrite query_model_invocations, Hc. }
  rewrite (query_model_returns _ _ _ _ _ _ _ _ _ Hc).
  destruct (create_trace _ _ _ _ _ _ Hc) as [_ Hp].
  destruct (print_format_ok gettext _ _ _ Hok
              (format_general_exception "list index out of range"))
    as (line & Hline & Hprint).
  unfold deliver, try_except, query_model_except. simpl.
  change (isinstance (IndexError "list index out of range") BadRequestError)
    with false.
  change (isinstance (IndexError "list index out of range") OpenAIError)
    with false.
  change (isinstance (IndexError "list index out of range") Exception)
    with true.
  simpl. rewrite Hprint. simpl. split; [done|].
  exists line. split; [done|]. by rewrite app_nil_r, printed_app, Hp.
Qed.

Lemma response_without_choices_is_reported_witness :
  catalogue_ok Sample.untranslated ∧
  sdk_call_returns Edge.no_choices (PyStr "hello") false None (ChatCompletion []) ∧
  callback_invocations
    (query_model Sample.untranslated Sample.quiet_cb Sample.quiet_gate
       Edge.no_choices (PyStr "hello") false None).1 = [] ∧
  (query_model Sample.untranslated Sample.quiet_cb Sample.quiet_gate
     Edge.no_choices (PyStr "hello") false None).2 = inr tt ∧
  ∃ line,
    str_format
      (Sample.untranslated
         "General exception encountered while running the query: {error}")
      {[ "error" := "list index out of range" ]} = inr line ∧
    printed
      (query_model Sample.untranslated Sample.quiet_cb Sample.quiet_gate
         Edge.no_choices (PyStr "hello") false None).1
    = [line].
Proof.
  assert (sdk_call_returns Edge.no_choices (PyStr "hello") false None
            (ChatCompletion [])) as Hret.
  { eexists. reflexivity. }
  split; [exact catalogue_ok_untranslated|].
  split; [exact Hret|].
  exact (response_without_choices_is_reported Sample.untranslated
           Sample.quiet_cb Sample.quiet_gate _ _ _
           catalogue_ok_untranslated Hret).
Defined.

(** ** When the advisory appears *)

Lemma re_lang_rlit (a : string) : re_lang (rlit a) a.
Proof.
  pose proof (re_lang_lit a [] EmptyString lang_nil) as H.
  by rewrite app_nil_r, append_empty_r in H.
Qed.

(** A string that contains [mid] is found by the search for [mid]. *)
Lemma re_search_infix (pre mid post : string) :
  re_search (rlit mid) (pre +:+ mid +:+ post) = true.
Proof. apply re_search_complete, re_lang_rlit. Qed.

(** X8.  Without a catalogue, when the SDK call raises [e] and the message
    of [e] is text within ASCII, the advisory that the function is too big
    is among the printed lines exactly when [e] is a [BadRequestError] whose
    message contains "maximum context length is N tokens, however you
    requested M tokens" for numbers N and M written with the digits 0 to 9:
    no other failure with such a message is reported as a size problem. *)
Theorem advisory_only_for_context_length cb execute_sync
    self query stream opts e :
  sdk_call_raises self query stream opts e →
  ascii_text (exn_str e) = true →
  "Unfortunately, this function is too big to be analyzed with the model's current API limits."
    ∈ printed (query_model Sample.untranslated cb execute_sync
                 self query stream opts).1
  ↔ isinstance e BadRequestError = true ∧ context_length_message (exn_str e).
Proof.
  intros [tr Hc] _.
  rewrite (query_model_raises _ _ _ _ _ _ _ _ _ Hc). simpl.
  rewrite printed_app, (proj2 (create_trace _ _ _ _ _ _ Hc)). simpl.
  rewrite <- context_length_pattern_spec.
  unfold query_model_except, print_format, Sample.untranslated.
  rewrite format_general_exception, format_could_not_complete.
  destruct (isinstance e BadRequestError);
    [destruct (re_search context_length_pattern (exn_str e))|
     destruct (isinstance e OpenAIError); [|destruct (isinstance e Exception)]];
    simpl.
  - split; [done|]. intros _. apply list_elem_of_singleton. done.
  - split; [|intros [_ ?]; done].
    intros Hin%list_elem_of_singleton. discriminate Hin.
  - split; [|intros [? _]; done].
    intros Hin%list_elem_of_singleton. exfalso.
    pose proof (re_search_infix (model self)
                  " could not complete the request: " (exn_str e)) as Hs.
    rewrite <- Hin in Hs. vm_compute in Hs. discriminate Hs.
  - split; [|intros [? _]; done].
    intros Hin%list_elem_of_singleton. discriminate Hin.
  - split; [|intros [? _]; done]. intros Hin. by apply elem_of_nil in Hin.
Qed.

Lemma advisory_only_for_context_length_witness :
  sdk_call_raises (Sample.failing (Sample.bad_request Sample.too_long))
    (PyStr "hello") false None (Sample.bad_request Sample.too_long) ∧
  ascii_text (exn_str (Sample.bad_request Sample.too_long)) = true ∧
  ("Unfortunately, this function is too big to be analyzed with the model's current API limits."
     ∈ printed
         (query_model Sample.untranslated Sample.quiet_cb Sample.quiet_gate
            (Sample.failing (Sample.bad_request Sample.too_long))
            (PyStr "hello") false None).1
   ↔ isinstance (Sample.bad_request Sample.too_long) BadRequestError = true ∧
     context_length_message (exn_str (Sample.bad_request Sample.too_long))).
Proof.
  assert (sdk_call_raises (Sample.failing (Sample.bad_request Sample.too_long))
            (PyStr "hello") false None (Sample.bad_request Sample.too_long))
    as Hr.
  { eexists. reflexivity. }
  split; [exact Hr|].
  split; [reflexivity|].
  exact (advisory_only_for_context_length Sample.quiet_cb Sample.quiet_gate
           _ _ _ _ _ Hr eq_refl).
Defined.

(** ** The whole trace of a streaming dispatch *)

Section StreamingTrace.
Variable gettext : string → string.
Variable cb : nat → list pyval → option exn.
Variable execute_sync : cb_partial → Z → option exn.

(** With well-formed chunks and a callback that returns, the dispatch is the
    request, then one callback per chunk, then the end of the stream left to
    the handlers. *)
Lemma streaming_run self query opts chunks failure firsts :
  sdk_call_returns self query true opts (Stream chunks failure) →
  Forall2 (λ c ch, head (chunk_choices c) = Some ch) chunks firsts →
  (∀ i ch, firsts !! i = Some ch →
           cb i [delta_text (delta ch); finish_reason ch] = None) →
  query_model gettext cb execute_sync self query true opts
  = try_except
      (EvRequest {| req_model := model self;
                    req_messages := conversation_of query;
                    req_stream := true;
                    req_extra := default ∅ opts |}
       :: ((λ ch, EvCallback [delta_text (delta ch); finish_reason ch])
           <$> firsts),
       match failure with
       | Some e => inl e
       | None => inr tt
       end)
      (query_model_except gettext self).
Proof.
  intros [tr Hc] Hfirst Hcb.
  rewrite (query_model_returns _ _ _ _ _ _ _ _ _ Hc).
  rewrite (create_returns_trace _ _ _ _ _ _ Hc).
  change (deliver cb execute_sync true (Stream chunks failure))
    with (for_chunks cb 0 chunks failure).
  by rewrite (for_chunks_run cb 0 chunks failure firsts Hfirst Hcb).
Qed.

End StreamingTrace.

(** X9.  A streaming dispatch whose stream ends normally, with well-formed
    chunks and a callback that returns, consists of the request followed by
    one callback per chunk and nothing else: nothing is printed, nothing
    goes through [execute_sync], and [query_model] returns. *)
Theorem streaming_success_trace gettext cb execute_sync
    self query opts chunks firsts :
  sdk_call_returns self query true opts (Stream chunks None) →
  Forall2 (λ c ch, head (chunk_choices c) = Some ch) chunks firsts →
  (∀ i ch, firsts !! i = Some ch →
           cb i [delta_text (delta ch); finish_reason ch] = None) →
  query_model gettext cb execute_sync self query true opts
  = (EvRequest {| req_model := model self;
                  req_messages := conversation_of query;
                  req_stream := true;
                  req_extra := default ∅ opts |}
     :: ((λ ch, EvCallback [delta_text (delta ch); finish_reason ch])
         <$> firsts),
     inr tt).
Proof.
  intros Hret Hfirst Hcb.
  by rewrite (streaming_run gettext cb execute_sync _ _ _ _ _ _
                Hret Hfirst Hcb).
Qed.

Lemma streaming_success_trace_witness :
  sdk_call_returns Sample.streaming (PyStr "hello") true None
    (Stream Sample.three_chunks None) ∧
  query_model Sample.untranslated Sample.quiet_cb Sample.quiet_gate
    Sample.streaming (PyStr "hello") true None
  = ([ EvRequest {| req_model := "gpt-x";
                    req_messages := PyList [Sample.user_message "hello"];
                    req_stream := true;
                    req_extra := ∅ |};
       EvCallback [PyStr "Hel"; PyNone];
       EvCallback [PyStr "lo"; PyNone];
       EvCallback [PyStr EmptyString; PyStr "stop"] ],
     inr tt).
Proof.
  assert (sdk_call_returns Sample.streaming (PyStr "hello") true None
            (Stream Sample.three_chunks None)) as Hret.
  { eexists. reflexivity. }
  split; [exact Hret|].
  apply (streaming_success_trace Sample.untranslated Sample.quiet_cb
           Sample.quiet_gate Sample.streaming (PyStr "hello") None
           Sample.three_chunks
           [ {| delta := {| delta_content := Some (PyStr "Hel") |};
                finish_reason := PyNone |};
             {| delta := {| delta_content := Some (PyStr "lo") |};
                finish_reason := PyNone |};
             {| delta := {| delta_content := None |};
                finish_reason := PyStr "stop" |} ]).
  - exact Hret.
  - repeat constructor.
  - reflexivity.
Defined.

(** X10.  When the stream raises an [Exception] after its chunks, the
    callback has already been invoked for every chunk received; with a
    usable catalogue the failure is then printed as one line after those
    callbacks, and [query_model] returns. *)
Theorem stream_failure_after_callbacks gettext cb execute_sync
    self query opts chunks firsts e :
  catalogue_ok gettext →
  sdk_call_returns self query true opts (Stream chunks (Some e)) →
  Forall2 (λ c ch, head (chunk_choices c) = Some ch) chunks firsts →
  (∀ i ch, firsts !! i = Some ch →
           cb i [delta_text (delta ch); finish_reason ch] = None) →
  isinstance e Exception = true →
  ∃ line,
    query_model gettext cb execute_sync self query true opts
    = (EvRequest {| req_model := model self;
                    req_messages := conversation_of query;
                    req_stream := true;
                    req_extra := default ∅ opts |}
       :: ((λ ch, EvCallback [delta_text (delta ch); finish_reason ch])
           <$> firsts) ++ [EvPrint line],
       inr tt).
Proof.
  intros Hok Hret Hfirst Hcb Hexc.
  rewrite (streaming_run gettext cb execute_sync _ _ _ _ _ _
             Hret Hfirst Hcb).
  destruct (query_model_except_prints gettext self e Hok Hexc) as [line Hl].
  exists line. unfold try_except. by rewrite Hl.
Qed.

Lemma stream_failure_after_callbacks_witness :
  catalogue_ok Sample.untranslated ∧
  sdk_call_returns Edge.breaking (PyStr "hello") true None
    (Stream [ Sample.a_chunk (Some (PyStr "Hel")) PyNone;
              Sample.a_chunk (Some (PyStr "lo")) PyNone ]
            (Some (Sample.api_error "APIConnectionError" "Connection error."))) ∧
  ∃ line,
    query_model Sample.untranslated Sample.quiet_cb Sample.quiet_gate
      Edge.breaking (PyStr "hello") true None
    = ([ EvRequest {| req_model := "gpt-x";
                      req_messages := PyList [Sample.user_message "hello"];
                      req_stream := true;
                      req_extra := ∅ |};
         EvCallback [PyStr "Hel"; PyNone];
         EvCallback [PyStr "lo"; PyNone];
         EvPrint line ],
       inr tt).
Proof.
  assert (sdk_call_returns Edge.breaking (PyStr "hello") true None
            (Stream [ Sample.a_chunk (Some (PyStr "Hel")) PyNone;
                      Sample.a_chunk (Some (PyStr "lo")) PyNone ]
                    (Some (Sample.api_error "APIConnectionError"
                             "Connection error.")))) as Hret.
  { eexists. reflexivity. }
  split; [exact catalogue_ok_untranslated|].
  split; [exact Hret|].
  apply (stream_failure_after_callbacks Sample.untranslated Sample.quiet_cb
           Sample.quiet_gate Edge.breaking (PyStr "hello") None
           [ Sample.a_chunk (Some (PyStr "Hel")) PyNone;
             Sample.a_chunk (Some (PyStr "lo")) PyNone ]
           [ {| delta := {| delta_content := Some (PyStr "Hel") |};
                finish_reason := PyNone |};
             {| delta := {| delta_content := Some (PyStr "lo") |};
                finish_reason := PyNone |} ]
           (Sample.api_error "APIConnectionError" "Connection error.")
           catalogue_ok_untranslated Hret).
  - repeat constructor.
  - reflexivity.
  - reflexivity.
Defined.

(** X11.  A non-streaming dispatch whose response has a first choice, and
    whose hand-over to [execute_sync] returns, consists of the request
    followed by that hand-over: nothing is printed and [query_model]
    returns. *)
Theorem non_streaming_success_trace gettext cb execute_sync
    self query opts choice others :
  sdk_call_returns self query false opts (ChatCompletion (choice :: others)) →
  execute_sync
    {| partial_kwargs := {[ "response" := content (choice_message choice) ]} |}
    MFF_WRITE = None →
  query_model gettext cb execute_sync self query false opts
  = ([ EvRequest {| req_model := model self;
                    req_messages := conversation_of query;
                    req_stream := false;
                    req_extra := default ∅ opts |};
       EvExecuteSync
         {| partial_kwargs := {[ "response" := content (choice_message choice) ]} |}
         MFF_WRITE ],
     inr tt).
Proof.
  intros [tr Hc] Hgate.
  rewrite (query_model_returns _ _ _ _ _ _ _ _ _ Hc).
  rewrite (create_returns_trace _ _ _ _ _ _ Hc).
  unfold deliver, call_execute_sync. simpl. by rewrite Hgate.
Qed.

Lemma non_streaming_success_trace_witness :
  sdk_call_returns (Sample.answering "It adds two numbers.") (PyStr "hello")
    false None
    (ChatCompletion
       [ {| choice_message := {| content := PyStr "It adds two numbers." |} |} ]) ∧
  query_model Sample.untranslated Sample.quiet_cb Sample.quiet_gate
    (Sample.answering "It adds two numbers.") (PyStr "hello") false None
  = ([ EvRequest {| req_model := "gpt-x";
                    req_messages := PyList [Sample.user_message "hello"];
                    req_stream := false;
                    req_extra := ∅ |};
       EvExecuteSync
         {| partial_kwargs := {[ "response" := PyStr "It adds two numbers." ]} |}
         MFF_WRITE ],
     inr tt).
Proof.
  assert (sdk_call_returns (Sample.answering "It adds two numbers.")
            (PyStr "hello") false None
            (ChatCompletion
               [ {| choice_message :=
                      {| content := PyStr "It adds two numbers." |} |} ])) as Hret.
  { eexists. reflexivity. }
  split; [exact Hret|].
  exact (non_streaming_success_trace Sample.untranslated Sample.quiet_cb
           Sample.quiet_gate _ _ _ _ _ Hret eq_refl).
Defined.

(** * Further properties of discovery *)

(** Once the GET returned without an error status, discovery is the
    decoding of the body under the [except] clause. *)
Lemma supported_models_of_response get_server requests_get link r :
  get_server = Some link →
  link ≠ EmptyString →
  requests_get (link +:+ "/models") = GetReturns r →
  (status_code r < 400 ∨ 600 ≤ status_code r) →
  supported_models get_server requests_get
  = match (body ← json r;
           data ← py_get body "data" (PyList []);
           entries ← py_iter data;
           model_ids entries) with
    | inl e => if isinstance e RequestException then inr [] else inl e
    | inr models => inr models
    end.
Proof.
  intros -> Hlink Hget Hstatus.
  unfold supported_models, supported_models_try, unset. simpl.
  destruct (String.eqb_spec link EmptyString) as [|_]; [done|].
  rewrite Hget. unfold raise_for_status.
  replace ((400 <=? status_code r) && (status_code r <? 500)) with false by lia.
  by replace ((500 <=? status_code r) && (status_code r <? 600)) with false by lia.
Qed.

(** X12.  A body that is an object without a [data] key lists nothing:
    [supported_models] returns the empty list and the backend counts as not
    configured. *)
Theorem body_without_data_lists_nothing get_server requests_get link r body :
  get_server = Some link →
  link ≠ EmptyString →
  requests_get (link +:+ "/models") = GetReturns r →
  (status_code r < 400 ∨ 600 ≤ status_code r) →
  json r = inr (PyDict body) →
  body !! "data" = None →
  supported_models get_server requests_get = inr [] ∧
  is_configured_properly get_server requests_get = inr false.
Proof.
  intros Hs Hlink Hget Hstatus Hjson Hdata.
  assert (supported_models get_server requests_get = inr []) as Hm.
  { rewrite (supported_models_of_response _ _ _ _ Hs Hlink Hget Hstatus).
    rewrite Hjson. cbn. by rewrite Hdata. }
  split; [done|]. unfold is_configured_properly. by rewrite Hm.
Qed.

Lemma body_without_data_lists_nothing_witness :
  supported_models (Some "http://localhost:4000")
    (Sample.serving 200 (inr (PyDict {[ "object" := PyStr "list" ]}))) = inr [] ∧
  is_configured_properly (Some "http://localhost:4000")
    (Sample.serving 200 (inr (PyDict {[ "object" := PyStr "list" ]})))
  = inr false.
Proof.
  apply (body_without_data_lists_nothing (Some "http://localhost:4000")
           (Sample.serving 200 (inr (PyDict {[ "object" := PyStr "list" ]})))
           "http://localhost:4000"
           {| status_code := 200;
              json := inr (PyDict {[ "object" := PyStr "list" ]}) |}
           {[ "object" := PyStr "list" ]}).
  - reflexivity.
  - discriminate.
  - reflexivity.
  - left. simpl. lia.
  - reflexivity.
  - reflexivity.
Defined.

(** The comprehension stops at the first entry that is not of the
    documented shape. *)
Lemma model_ids_malformed pre bad post :
  Forall listed_entry pre →
  ¬ listed_entry bad →
  model_ids (pre ++ bad :: post)
  = inl (match bad with
         | PyDict _ => KeyError "id"
         | _ => AttributeError (type_name bad) "get"
         end).
Proof.
  intros Hpre Hbad.
  induction Hpre as [|entry pre [[d ->] Hid] _ IH]; simpl.
  - destruct bad as [| | | | | |d]; try done.
    unfold listed_entry, is_model_entry in Hbad. simpl in *.
    destruct (d !! "object") as [object|] eqn:Hobj; simpl.
    + destruct (py_eq_str object "model") eqn:Hm.
      * destruct (d !! "id") eqn:Hd; [|done].
        destruct Hbad. split; [by eexists | by eexists].
      * destruct Hbad. split; [by eexists | done].
    + destruct Hbad. split; [by eexists | done].
  - unfold is_model_entry in Hid. simpl in *.
    destruct (d !! "object") as [object|] eqn:Hobj; simpl.
    + destruct (py_eq_str object "model") eqn:Hm; [|by rewrite IH].
      destruct (Hid eq_refl) as [id Hd]. rewrite Hd. cbn. by rewrite IH.
    + by rewrite IH.
Qed.

(** X13.  Discovery is not total on malformed listings.  When the entries
    before it are well formed, the first entry that is not an object, or
    that is a model without an [id], makes [supported_models] raise
    ([AttributeError], or [KeyError] for the missing [id]); the [except]
    clause does not catch it, and [is_configured_properly] raises it too. *)
Theorem malformed_entry_raises get_server requests_get link r body pre bad post :
  get_server = Some link →
  link ≠ EmptyString →
  requests_get (link +:+ "/models") = GetReturns r →
  (status_code r < 400 ∨ 600 ≤ status_code r) →
  json r = inr (PyDict body) →
  body !! "data" = Some (PyList (pre ++ bad :: post)) →
  Forall listed_entry pre →
  ¬ listed_entry bad →
  supported_models get_server requests_get
  = inl (match bad with
         | PyDict _ => KeyError "id"
         | _ => AttributeError (type_name bad) "get"
         end) ∧
  is_configured_properly get_server requests_get
  = inl (match bad with
         | PyDict _ => KeyError "id"
         | _ => AttributeError (type_name bad) "get"
         end).
Proof.
  intros Hs Hlink Hget Hstatus Hjson Hdata Hpre Hbad.
  assert (supported_models get_server requests_get
          = inl (match bad with
                 | PyDict _ => KeyError "id"
                 | _ => AttributeError (type_name bad) "get"
                 end)) as Hm.
  { rewrite (supported_models_of_response _ _ _ _ Hs Hlink Hget Hstatus).
    rewrite Hjson. cbn. rewrite Hdata. cbn.
    rewrite (model_ids_malformed _ _ _ Hpre Hbad).
    by destruct bad. }
  split; [done|]. unfold is_configured_properly. by rewrite Hm.
Qed.

Lemma nameless_is_not_listed : ¬ listed_entry Edge.nameless.
Proof. intros [_ Hid]. destruct (Hid eq_refl) as [id Hd]. discriminate Hd. Qed.

Lemma first_of_listing_is_listed :
  Forall listed_entry
    [PyDict {[ "id" := PyStr "gpt-x"; "object" := PyStr "model" ]}].
Proof. repeat constructor; [by eexists | intros _; by eexists]. Qed.

Lemma malformed_entry_raises_witness :
  Forall listed_entry
    [PyDict {[ "id" := PyStr "gpt-x"; "object" := PyStr "model" ]}] ∧
  ¬ listed_entry Edge.nameless ∧
  supported_models (Some "http://localhost:4000")
    (Sample.serving 200
       (inr (PyDict
               {[ "data" :=
                    PyList ([PyDict {[ "id" := PyStr "gpt-x";
                                       "object" := PyStr "model" ]}]
                            ++ Edge.nameless :: []) ]})))
  = inl (KeyError "id") ∧
  is_configured_properly (Some "http://localhost:4000")
    (Sample.serving 200
       (inr (PyDict
               {[ "data" :=
                    PyList ([PyDict {[ "id" := PyStr "gpt-x";
                                       "object" := PyStr "model" ]}]
                            ++ Edge.nameless :: []) ]})))
  = inl (KeyError "id").
Proof.
  split; [exact first_of_listing_is_listed|].
  split; [exact nameless_is_not_listed|].
  apply (malformed_entry_raises (Some "http://localhost:4000")
           (Sample.serving 200
              (inr (PyDict
                      {[ "data" :=
                           PyList ([PyDict {[ "id" := PyStr "gpt-x";
                                              "object" := PyStr "model" ]}]
                                   ++ Edge.nameless :: []) ]})))
           "http://localhost:4000"
           {| status_code := 200;
              json := inr (PyDict
                      {[ "data" :=
                           PyList ([PyDict {[ "id" := PyStr "gpt-x";
                                              "object" := PyStr "model" ]}]
                                   ++ Edge.nameless :: []) ]}) |}
           {[ "data" :=
                PyList ([PyDict {[ "id" := PyStr "gpt-x";
                                   "object" := PyStr "model" ]}]
                        ++ Edge.nameless :: []) ]}
           [PyDict {[ "id" := PyStr "gpt-x"; "object" := PyStr "model" ]}]
           Edge.nameless []).
  - reflexivity.
  - discriminate.
  - reflexivity.
  - left. simpl. lia.
  - reflexivity.
  - reflexivity.
  - exact first_of_listing_is_listed.
  - exact nameless_is_not_listed.
Defined.

(** X14.  When the body cannot be decoded, the decoder's exception decides:
    a [RequestException] (the decoder of [requests] raises one) is caught
    and discovery returns the empty list; any other exception leaves
    [supported_models]. *)
Theorem undecodable_body get_server requests_get link r e :
  get_server = Some link →
  link ≠ EmptyString →
  requests_get (link +:+ "/models") = GetReturns r →
  (status_code r < 400 ∨ 600 ≤ status_code r) →
  json r = inl e →
  supported_models get_server requests_get
  = if isinstance e RequestException then inr [] else inl e.
Proof.
  intros Hs Hlink Hget Hstatus Hjson.
  rewrite (supported_models_of_response _ _ _ _ Hs Hlink Hget Hstatus).
  by rewrite Hjson.
Qed.

Lemma undecodable_body_witness :
  supported_models (Some "http://localhost:4000")
    (Sample.serving 200
       (inl (Edge.json_decode_error "Expecting value: line 1 column 1 (char 0)")))
  = inr [] ∧
  supported_models (Some "http://localhost:4000")
    (Sample.serving 200 (inl (ValueError "Expecting value")))
  = inl (ValueError "Expecting value").
Proof.
  split.
  - apply (undecodable_body (Some "http://localhost:4000")
             (Sample.serving 200
                (inl (Edge.json_decode_error
                        "Expecting value: line 1 column 1 (char 0)")))
             "http://localhost:4000"
             {| status_code := 200;
                json := inl (Edge.json_decode_error
                               "Expecting value: line 1 column 1 (char 0)") |}
             (Edge.json_decode_error "Expecting value: line 1 column 1 (char 0)"));
      [reflexivity | discriminate | reflexivity | left; simpl; lia | reflexivity].
  - apply (undecodable_body (Some "http://localhost:4000")
             (Sample.serving 200 (inl (ValueError "Expecting value")))
             "http://localhost:4000"
             {| status_code := 200; json := inl (ValueError "Expecting value") |}
             (ValueError "Expecting value"));
      [reflexivity | discriminate | reflexivity | left; simpl; lia | reflexivity].
Defined.

(** X15.  A decoded body that is not an object has no [get]: the
    [AttributeError] is not a [RequestException], so [supported_models]
    raises it instead of returning the empty list. *)
Theorem body_that_is_not_an_object_raises get_server requests_get link r body :
  get_server = Some link →
  link ≠ EmptyString →
  requests_get (link +:+ "/models") = GetReturns r →
  (status_code r < 400 ∨ 600 ≤ status_code r) →
  json r = inr body →
  (∀ d, body ≠ PyDict d) →
  supported_models get_server requests_get
  = inl (AttributeError (type_name body) "get").
Proof.
  intros Hs Hlink Hget Hstatus Hjson Hbody.
  rewrite (supported_models_of_response _ _ _ _ Hs Hlink Hget Hstatus).
  rewrite Hjson. destruct body; try done. by destruct (Hbody d).
Qed.

Lemma body_that_is_not_an_object_raises_witness :
  supported_models (Some "http://localhost:4000")
    (Sample.serving 200 (inr (PyList Sample.listing)))
  = inl (AttributeError "list" "get").
Proof.
  apply (body_that_is_not_an_object_raises (Some "http://localhost:4000")
           (Sample.serving 200 (inr (PyList Sample.listing)))
           "http://localhost:4000"
           {| status_code := 200; json := inr (PyList Sample.listing) |}
           (PyList Sample.listing));
    [reflexivity | discriminate | reflexivity | left; simpl; lia
    | reflexivity | discriminate].
Defined.

(** X16.  For a listing of the documented shape, the backend counts as
    configured exactly when some entry of the listing is a model. *)
Theorem configured_iff_some_model get_server requests_get link r body entries :
  get_server = Some link →
  link ≠ EmptyString →
  requests_get (link +:+ "/models") = GetReturns r →
  (status_code r < 400 ∨ 600 ≤ status_code r) →
  json r = inr (PyDict body) →
  body !! "data" = Some (PyList entries) →
  Forall listed_entry entries →
  ∃ b, is_configured_properly get_server requests_get = inr b ∧
       (b = true ↔ ∃ entry, entry ∈ entries ∧ is_model_entry entry = true).
Proof.
  intros Hs Hlink Hget Hstatus Hjson Hdata Hentries.
  destruct (model_ids_listed entries Hentries) as (ids & Hids & Hspec).
  assert (supported_models get_server requests_get = inr ids) as Hm.
  { rewrite (supported_models_of_response _ _ _ _ Hs Hlink Hget Hstatus).
    rewrite Hjson. cbn. rewrite Hdata. cbn. by rewrite Hids. }
  unfold is_configured_properly. rewrite Hm. cbn.
  eexists. split; [done|].
  unfold ids_of_model_entries in Hspec. apply Forall2_length in Hspec.
  rewrite <- Hspec. split.
  - intros Hpos. apply Z.ltb_lt in Hpos.
    destruct (List.filter is_model_entry entries) as [|entry rest] eqn:Hf;
      [simpl in Hpos; lia|].
    exists entry.
    assert (In entry (List.filter is_model_entry entries)) as Hin
      by (rewrite Hf; by left).
    apply filter_In in Hin as [Hin Hmodel]. split; [|done].
    by apply list_elem_of_In.
  - intros (entry & Hin & Hmodel). apply Z.ltb_lt.
    assert (In entry (List.filter is_model_entry entries)) as Hf.
    { apply filter_In. split; [by apply list_elem_of_In | done]. }
    destruct (List.filter is_model_entry entries); [done|]. simpl. lia.
Qed.

Lemma configured_iff_some_model_witness :
  Forall listed_entry Sample.listing ∧
  ∃ b,
    is_configured_properly (Some "http://localhost:4000")
      (Sample.serving 200 (inr (PyDict Sample.listing_body))) = inr b ∧
    (b = true ↔
     ∃ entry, entry ∈ Sample.listing ∧ is_model_entry entry = true).
Proof.
  split; [exact listing_is_listed|].
  apply (configured_iff_some_model (Some "http://localhost:4000")
           (Sample.serving 200 (inr (PyDict Sample.listing_body)))
           "http://localhost:4000"
           {| status_code := 200; json := inr (PyDict Sample.listing_body) |}
           Sample.listing_body Sample.listing);
    [reflexivity | discriminate | reflexivity | left; simpl; lia
    | reflexivity | reflexivity | exact listing_is_listed].
Defined.

(** * Streams that stop early *)

Section EarlyStop.
Variable gettext : string → string.
Variable cb : nat → list pyval → option exn.
Variable execute_sync : cb_partial → Z → option exn.

(** The loop over well-formed chunks on which the callback returns,
    followed by the loop over the rest. *)
Lemma for_chunks_app n before rest failure firsts :
  Forall2 (λ c ch, head (chunk_choices c) = Some ch) before firsts →
  (∀ i ch, firsts !! i = Some ch →
           cb (n + i) [delta_text (delta ch); finish_reason ch] = None) →
  for_chunks cb n (before ++ rest) failure
  = (((λ ch, EvCallback [delta_text (delta ch); finish_reason ch]) <$> firsts)
     ++ (for_chunks cb (n + length before) rest failure).1,
     (for_chunks cb (n + length before) rest failure).2).
Proof.
  intros Hf. revert n. induction Hf as [|c ch before firsts Hhd _ IH];
    intros n Hcb; simpl.
  - rewrite Nat.add_0_r. by destruct (for_chunks cb n rest failure).
  - destruct (chunk_choices c) as [|ch0 others]; simplify_eq/=.
    pose proof (Hcb 0%nat ch eq_refl) as H0. rewrite Nat.add_0_r in H0.
    unfold call_cb. rewrite H0. cbn. rewrite IH.
    + replace (S n + length before)%nat with (n + S (length before))%nat by lia.
      done.
    + intros i ch' Hi.
      replace (S n + i)%nat with (n + S i)%nat by lia. by apply Hcb.
Qed.

(** A dispatch whose stream starts with well-formed chunks on which the
    callback returns. *)
Lemma streaming_run_app self query opts before rest failure firsts :
  sdk_call_returns self query true opts (Stream (before ++ rest) failure) →
  Forall2 (λ c ch, head (chunk_choices c) = Some ch) before firsts →
  (∀ i ch, firsts !! i = Some ch →
           cb i [delta_text (delta ch); finish_reason ch] = None) →
  query_model gettext cb execute_sync self query true opts
  = try_except
      (EvRequest {| req_model := model self;
                    req_messages := conversation_of query;
                    req_stream := true;
                    req_extra := default ∅ opts |}
       :: ((λ ch, EvCallback [delta_text (delta ch); finish_reason ch])
           <$> firsts)
       ++ (for_chunks cb (length before) rest failure).1,
       (for_chunks cb (length before) rest failure).2)
      (query_model_except gettext self).
Proof.
  intros [tr Hc] Hfirst Hcb.
  rewrite (query_model_returns _ _ _ _ _ _ _ _ _ Hc).
  rewrite (create_returns_trace _ _ _ _ _ _ Hc).
  change (deliver cb execute_sync true (Stream (before ++ rest) failure))
    with (for_chunks cb 0 (before ++ rest) failure).
  by rewrite (for_chunks_app 0 before rest failure firsts Hfirst Hcb).
Qed.

End EarlyStop.

(** X17.  An [Exception] raised by the callback is swallowed like a failure
    of the SDK.  When the callback returns on the chunks before [c] and
    raises [e] on [c], the chunks after [c] are not delivered: with a usable
    catalogue the trace is the request, the callbacks up to and including
    the one for [c], and one printed line, and [query_model] returns. *)
Theorem raising_callback_stops_the_stream gettext cb execute_sync
    self query opts before c after failure firsts ch e :
  catalogue_ok gettext →
  sdk_call_returns self query true opts (Stream (before ++ c :: after) failure) →
  Forall2 (λ c ch, head (chunk_choices c) = Some ch) before firsts →
  (∀ i ch, firsts !! i = Some ch →
           cb i [delta_text (delta ch); finish_reason ch] = None) →
  head (chunk_choices c) = Some ch →
  cb (length before) [delta_text (delta ch); finish_reason ch] = Some e →
  isinstance e Exception = true →
  ∃ line,
    query_model gettext cb execute_sync self query true opts
    = (EvRequest {| req_model := model self;
                    req_messages := conversation_of query;
                    req_stream := true;
                    req_extra := default ∅ opts |}
       :: ((λ ch, EvCallback [delta_text (delta ch); finish_reason ch])
           <$> (firsts ++ [ch]))
       ++ [EvPrint line],
       inr tt).
Proof.
  intros Hok Hret Hfirst Hcb Hhd Hraise Hexc.
  rewrite (streaming_run_app gettext cb execute_sync _ _ _ _ _ _ _
             Hret Hfirst Hcb).
  simpl. destruct (chunk_choices c) as [|ch0 others]; simplify_eq/=.
  unfold call_cb. rewrite Hraise. cbn.
  destruct (query_model_except_prints gettext self e Hok Hexc) as [line Hl].
  exists line. rewrite Hl. rewrite fmap_app. simpl.
  by rewrite <- !app_assoc.
Qed.

Lemma raising_callback_stops_the_stream_witness :
  catalogue_ok Sample.untranslated ∧
  sdk_call_returns Sample.streaming (PyStr "hello") true None
    (Stream ([Sample.a_chunk (Some (PyStr "Hel")) PyNone]
             ++ Sample.a_chunk (Some (PyStr "lo")) PyNone
             :: [Sample.a_chunk None (PyStr "stop")]) None) ∧
  ∃ line,
    query_model Sample.untranslated
      (λ n _, if decide (n = 1%nat) then Some (ValueError "no") else None)
      Sample.quiet_gate Sample.streaming (PyStr "hello") true None
    = ([ EvRequest {| req_model := "gpt-x";
                      req_messages := PyList [Sample.user_message "hello"];
                      req_stream := true;
                      req_extra := ∅ |};
         EvCallback [PyStr "Hel"; PyNone];
         EvCallback [PyStr "lo"; PyNone];
         EvPrint line ],
       inr tt).
Proof.
  assert (sdk_call_returns Sample.streaming (PyStr "hello") true None
            (Stream ([Sample.a_chunk (Some (PyStr "Hel")) PyNone]
                     ++ Sample.a_chunk (Some (PyStr "lo")) PyNone
                     :: [Sample.a_chunk None (PyStr "stop")]) None)) as Hret.
  { eexists. reflexivity. }
  split; [exact catalogue_ok_untranslated|].
  split; [exact Hret|].
  apply (raising_callback_stops_the_stream Sample.untranslated
           (λ n _, if decide (n = 1%nat) then Some (ValueError "no") else None)
           Sample.quiet_gate Sample.streaming (PyStr "hello") None
           [Sample.a_chunk (Some (PyStr "Hel")) PyNone]
           (Sample.a_chunk (Some (PyStr "lo")) PyNone)
           [Sample.a_chunk None (PyStr "stop")] None
           [ {| delta := {| delta_content := Some (PyStr "Hel") |};
                finish_reason := PyNone |} ]
           {| delta := {| delta_content := Some (PyStr "lo") |};
              finish_reason := PyNone |}
           (ValueError "no") catalogue_ok_untranslated Hret).
  - repeat constructor.
  - intros [|i] ch' Hi; [reflexivity | destruct i; discriminate Hi].
  - reflexivity.
  - reflexivity.
  - reflexivity.
Defined.

(** X18.  A chunk without choices stops the stream before its callback.
    When the chunks before [c] are well formed and the callback returns on
    them, and [c] has no choices, neither [c] nor any chunk after it is
    delivered: with a usable catalogue the [IndexError] is printed as one
    line after the callbacks made so far, and [query_model] returns. *)
Theorem chunk_without_choices_stops_the_stream gettext cb execute_sync
    self query opts before c after failure firsts :
  catalogue_ok gettext →
  sdk_call_returns self query true opts (Stream (before ++ c :: after) failure) →
  Forall2 (λ c ch, head (chunk_choices c) = Some ch) before firsts →
  (∀ i ch, firsts !! i = Some ch →
           cb i [delta_text (delta ch); finish_reason ch] = None) →
  chunk_choices c = [] →
  ∃ line,
    query_model gettext cb execute_sync self query true opts
    = (EvRequest {| req_model := model self;
                    req_messages := conversation_of query;
                    req_stream := true;
                    req_extra := default ∅ opts |}
       :: ((λ ch, EvCallback [delta_text (delta ch); finish_reason ch])
           <$> firsts)
       ++ [EvPrint line],
       inr tt).
Proof.
  intros Hok Hret Hfirst Hcb Hnone.
  rewrite (streaming_run_app gettext cb execute_sync _ _ _ _ _ _ _
             Hret Hfirst Hcb).
  simpl. rewrite Hnone. simpl.
  destruct (query_model_except_prints gettext self
              (IndexError "list index out of range") Hok eq_refl)
    as [line Hl].
  exists line. rewrite Hl. simpl. by rewrite app_nil_r.
Qed.

Lemma chunk_without_choices_stops_the_stream_witness :
  catalogue_ok Sample.untranslated ∧
  ∃ line,
    query_model Sample.untranslated Sample.quiet_cb Sample.quiet_gate
      {| model := "gpt-x";
         client := λ _, SdkReturns
           (Stream ([Sample.a_chunk (Some (PyStr "Hel")) PyNone]
                    ++ {| chunk_choices := [] |}
                    :: [Sample.a_chunk (Some (PyStr "lo")) PyNone]) None) |}
      (PyStr "hello") true None
    = ([ EvRequest {| req_model := "gpt-x";
                      req_messages := PyList [Sample.user_message "hello"];
                      req_stream := true;
                      req_extra := ∅ |};
         EvCallback [PyStr "Hel"; PyNone];
         EvPrint line ],
       inr tt).
Proof.
  split; [exact catalogue_ok_untranslated|].
  apply (chunk_without_choices_stops_the_stream Sample.untranslated
           Sample.quiet_cb Sample.quiet_gate
           {| model := "gpt-x";
              client := λ _, SdkReturns
                (Stream ([Sample.a_chunk (Some (PyStr "Hel")) PyNone]
                         ++ {| chunk_choices := [] |}
                         :: [Sample.a_chunk (Some (PyStr "lo")) PyNone]) None) |}
           (PyStr "hello") None
           [Sample.a_chunk (Some (PyStr "Hel")) PyNone]
           {| chunk_choices := [] |}
           [Sample.a_chunk (Some (PyStr "lo")) PyNone] None
           [ {| delta := {| delta_content := Some (PyStr "Hel") |};
                finish_reason := PyNone |} ]
           catalogue_ok_untranslated).
  - eexists. reflexivity.
  - repeat constructor.
  - reflexivity.
  - reflexivity.
Defined.
